(** * Percolator interaction helper and dashboard: address derivation,
      ledger probing and dry-run simulation

    A shallow embedding of [interact-percolator.js] and [dashboard.js]
    (both in [src/interact.js]).  The scripts are sequences of calls to
    three outside parties: the [@solana/web3.js] library (public keys,
    program-address derivation), the JSON-RPC connection to a cluster, and
    the console / HTTP response.  Every such call is recorded, in program
    order, in a trace; exceptions are explicit results. *)

From Stdlib Require Import List ZArith Lia Bool String Ascii.
From Stdlib Require Import Strings.Byte.
Import ListNotations.
Local Open Scope string_scope.
Local Open Scope Z_scope.
Local Open Scope list_scope.

(** ** Bytes, JavaScript strings and Node buffers *)

(** The low eight bits of an integer, as a byte. *)
Definition u8 (z : Z) : byte :=
  match Byte.of_N (Z.to_N (z mod 256)) with
  | Some b => b
  | None => Byte.x00
  end.

Definition byte_to_Z (b : byte) : Z := Z.of_N (Byte.to_N b).

(** A JavaScript string is a sequence of UTF-16 code units. *)
Definition JsString := list Z.

(** A source literal (ASCII) as a JavaScript string. *)
Definition js (s : string) : JsString :=
  map (fun a => Z.of_N (N_of_ascii a)) (list_ascii_of_string s).

Definition is_high_surrogate (c : Z) : bool := (0xD800 <=? c) && (c <=? 0xDBFF).
Definition is_low_surrogate (c : Z) : bool := (0xDC00 <=? c) && (c <=? 0xDFFF).

Definition utf8_of_code_point (cp : Z) : list byte :=
  if cp <? 0x80 then [u8 cp]
  else if cp <? 0x800 then
    [u8 (Z.lor 0xC0 (Z.shiftr cp 6)); u8 (Z.lor 0x80 (Z.land cp 0x3F))]
  else if cp <? 0x10000 then
    [u8 (Z.lor 0xE0 (Z.shiftr cp 12));
     u8 (Z.lor 0x80 (Z.land (Z.shiftr cp 6) 0x3F));
     u8 (Z.lor 0x80 (Z.land cp 0x3F))]
  else
    [u8 (Z.lor 0xF0 (Z.shiftr cp 18));
     u8 (Z.lor 0x80 (Z.land (Z.shiftr cp 12) 0x3F));
     u8 (Z.lor 0x80 (Z.land (Z.shiftr cp 6) 0x3F));
     u8 (Z.lor 0x80 (Z.land cp 0x3F))].

(** U+FFFD, which Node writes for a surrogate that has no partner. *)
Definition utf8_replacement : list byte := [u8 0xEF; u8 0xBF; u8 0xBD].

(** [Buffer.from(str)]: the UTF-8 bytes of the string, nothing before and
    nothing after them. *)
Fixpoint Buffer_from (s : JsString) : list byte :=
  match s with
  | [] => []
  | c :: rest =>
      if is_high_surrogate c then
        match rest with
        | d :: rest' =>
            if is_low_surrogate d
            then utf8_of_code_point
                   (0x10000 + (c - 0xD800) * 0x400 + (d - 0xDC00))
                 ++ Buffer_from rest'
            else utf8_replacement ++ Buffer_from rest
        | [] => utf8_replacement
        end
      else if is_low_surrogate c then utf8_replacement ++ Buffer_from rest
      else utf8_of_code_point c ++ Buffer_from rest
  end.

(** ** Exceptions *)

Inductive Exn : Type :=
| DerivationExhausted
| InvalidPublicKey (input : string)
| RangeError (value : Z)
| TransportError (cause : string).

Inductive Result (A : Type) : Type :=
| Ok (a : A)
| Throw (e : Exn).
Arguments Ok {A} a.
Arguments Throw {A} e.

Definition message (e : Exn) : string :=
  match e with
  | DerivationExhausted => "Unable to find a viable program address nonce"
  | InvalidPublicKey _ => "Invalid public key input"
  | RangeError _ => "The value is out of range"
  | TransportError cause => cause
  end.

(** [String(e)] *)
Definition String_of_error (e : Exn) : string :=
  if String.eqb (message e) "" then "Error" else String.append "Error: " (message e).

(** [e.message || String(e)]: an empty message is falsy. *)
Definition error_text (e : Exn) : string :=
  if String.eqb (message e) "" then String_of_error e else message e.

(** ** Data exchanged with the library and with the cluster *)

Definition PublicKey := list byte.
Definition toBuffer (k : PublicKey) : list byte := k.

Record Keypair := { publicKey : PublicKey; secretKey : list byte }.

(** What [connection.getAccountInfo] resolves to when the account exists.
    [data] is optional because the scripts read it with [ai.data?.length]. *)
Record AccountInfo := {
  lamports : Z;
  owner : PublicKey;
  executable : bool;
  data : option (list byte)
}.

Record AccountMeta := { pubkey : PublicKey; isSigner : bool; isWritable : bool }.

Record TransactionInstruction := {
  keys : list AccountMeta;
  programId : PublicKey;
  ix_data : list byte
}.

Record Transaction := {
  instructions : list TransactionInstruction;
  feePayer : option PublicKey;
  recentBlockhash : option string;
  signatures : list PublicKey
}.

(** [res.value] of [connection.simulateTransaction]. *)
Record SimulatedResult := { sim_err : option string; sim_logs : option (list string) }.

Record Connection := { rpcEndpoint : string; commitment : string }.

Inductive Presence := NotFound | ExecutableProgram | NonExecutableAccount.

Definition presence_text (p : Presence) : string :=
  match p with
  | NotFound => "not found"
  | ExecutableProgram => "executable program"
  | NonExecutableAccount => "non-executable account"
  end.

(** [p === 'executable program'] *)
Definition is_executable_program (p : Presence) : bool :=
  String.eqb (presence_text p) "executable program".

Inductive Target := Router | Slab.

(** ** The trace of outside calls *)

(** The calls a [Connection] offers.  [SendTransaction] is the one that
    submits for inclusion; the scripts never issue it, the constructor is
    here so that theorems can say so. *)
Inductive RpcCall :=
| GetAccountInfo (pk : PublicKey)
| GetVersion
| GetLatestBlockhash
| SimulateTransaction (tx : Transaction) (signers : list Keypair)
| SendTransaction (tx : Transaction).

(** Console lines, one constructor per shape of [console.log],
    [console.warn] and [console.error] call; the arguments are the values
    printed. *)
Inductive Out :=
| OutText (line : string)
| OutField (label value : string)
| OutMarket (market : JsString)
| OutPresence (label pk : string) (p : Presence)
| OutPda (label pk : string)
| OutPdaNote (label pk note : string)
| OutMetaNotFound (label pk : string)
| OutMetaFound (label pk owner : string) (exec : bool) (dataLen lamports : Z)
| OutSimulating (who : Target)
| OutLogs (who : Target) (logs : list string)
| OutErr (who : Target) (err : option string)
| OutSimulateFailed (who : Target) (msg : string)
| OutSkipping (who : Target)
| OutWarnLoadFailed (candidate msg : string)
| OutWarnEphemeral
| OutFatal (e : Exn)
| OutExit (code : Z).

Inductive Event :=
| Rpc (c : Connection) (call : RpcCall)
| FindProgramAddress (seeds : list (list byte)) (program : PublicKey)
| Console (o : Out).

Definition Trace := list Event.

(** The cluster behind the transport.  Its answer to a call may depend on
    the endpoint and on everything that happened before the call. *)
Record Cluster := {
  reply_getAccountInfo : Connection -> Trace -> PublicKey -> Result (option AccountInfo);
  reply_getVersion : Connection -> Trace -> Result string;
  reply_getLatestBlockhash : Connection -> Trace -> Result string;
  reply_simulateTransaction :
    Connection -> Trace -> Transaction -> list Keypair -> Result SimulatedResult
}.

(** The parts of [@solana/web3.js] the scripts rely on and whose code is
    not part of this repository: the hash behind program addresses, the
    curve test, and the base-58 text form of a public key. *)
Class Web3 := {
  hashv : list byte -> list byte;
  is_on_curve : list byte -> bool;
  pda_marker : list byte;
  toBase58 : PublicKey -> string;
  (** [new PublicKey(text)], [None] when the constructor throws *)
  fromBase58 : string -> option PublicKey
}.

(** ** The script monad: exceptions over a trace *)

Definition M (A : Type) : Type := Trace -> Result A * Trace.

Definition ret {A} (a : A) : M A := fun tr => (Ok a, tr).
Definition throw {A} (e : Exn) : M A := fun tr => (Throw e, tr).
Definition bind {A B} (m : M A) (k : A -> M B) : M B :=
  fun tr =>
    match m tr with
    | (Ok a, tr') => k a tr'
    | (Throw e, tr') => (Throw e, tr')
    end.
Definition try_catch {A} (m : M A) (handler : Exn -> M A) : M A :=
  fun tr =>
    match m tr with
    | (Ok a, tr') => (Ok a, tr')
    | (Throw e, tr') => handler e tr'
    end.
Definition emit (e : Event) : M unit := fun tr => (Ok tt, tr ++ [e]).
Definition lift {A} (r : Result A) : M A := fun tr => (r, tr).
Definition console (o : Out) : M unit := emit (Console o).

Declare Scope script_scope.
Delimit Scope script_scope with script.
Notation "x <- m ;; k" := (bind m (fun x => k))
  (at level 61, m at next level, right associativity) : script_scope.
Notation "m ;; k" := (bind m (fun _ => k))
  (at level 61, right associativity) : script_scope.
Notation "' pat <- m ;; k" := (bind m (fun x => match x with pat => k end))
  (at level 61, pat pattern, m at next level, right associativity) : script_scope.
Local Open Scope script_scope.

(** [for (const x of xs) { await body(x) }] *)
Fixpoint for_of {A} (xs : list A) (body : A -> M unit) : M unit :=
  match xs with
  | [] => ret tt
  | x :: rest => body x ;; for_of rest body
  end.

(** [Promise.all(tasks)].  Every task is started, in order, before any is
    awaited, so every task's calls are issued even when an earlier one is
    going to reject; the join rejects when some task rejected (here: with
    the rejection of the first such task in list order). *)
Fixpoint start_all {A} (tasks : list (M A)) (tr : Trace) : list (Result A) * Trace :=
  match tasks with
  | [] => ([], tr)
  | t :: rest =>
      let '(r, tr1) := t tr in
      let '(rs, tr2) := start_all rest tr1 in
      (r :: rs, tr2)
  end.

Fixpoint join_all {A} (rs : list (Result A)) : Result (list A) :=
  match rs with
  | [] => Ok []
  | Ok a :: rest =>
      match join_all rest with
      | Ok l => Ok (a :: l)
      | Throw e => Throw e
      end
  | Throw e :: _ => Throw e
  end.

Definition Promise_all {A} (tasks : list (M A)) : M (list A) :=
  fun tr => let '(rs, tr') := start_all tasks tr in (join_all rs, tr').

(** Four promises joined and destructured into four names. *)
Definition Promise_all4 {A} (t1 t2 t3 t4 : M A) : M (A * A * A * A) :=
  fun tr =>
    let '(r1, tr1) := t1 tr in
    let '(r2, tr2) := t2 tr1 in
    let '(r3, tr3) := t3 tr2 in
    let '(r4, tr4) := t4 tr3 in
    (match r1, r2, r3, r4 with
     | Ok a, Ok b, Ok c, Ok d => Ok (a, b, c, d)
     | Throw e, _, _, _ => Throw e
     | _, Throw e, _, _ => Throw e
     | _, _, Throw e, _ => Throw e
     | _, _, _, Throw e => Throw e
     end, tr4).

(** A loop that pushes one row per element onto a local array. *)
Fixpoint for_push {A B} (xs : list A) (body : A -> M B) : M (list B) :=
  match xs with
  | [] => ret []
  | x :: rest => b <- body x ;; bs <- for_push rest body ;; ret (b :: bs)
  end.

(** [a || d] on strings: [undefined] and the empty string are falsy. *)
Definition truthy (o : option string) : option string :=
  match o with
  | Some s => if String.eqb s "" then None else Some s
  | None => None
  end.

Definition or_else (o : option string) (d : string) : string :=
  match truthy o with Some s => s | None => d end.

Definition truthy_js (o : option JsString) : option JsString :=
  match o with
  | Some [] => None
  | Some s => Some s
  | None => None
  end.

Definition or_else_js (o : option JsString) (d : JsString) : JsString :=
  match truthy_js o with Some s => s | None => d end.

(** [u64LE(n)]: eight bytes, least significant first; [writeBigUInt64LE]
    throws outside the unsigned 64-bit range. *)
Definition u64LE (n : Z) : Result (list byte) :=
  if (0 <=? n) && (n <? 2 ^ 64)
  then Ok (map (fun i => u8 (Z.shiftr n (8 * Z.of_nat i))) (seq 0 8))
  else Throw (RangeError n).

Definition new_Transaction : Transaction :=
  {| instructions := []; feePayer := None; recentBlockhash := None; signatures := [] |}.

Definition Transaction_add (tx : Transaction) (ix : TransactionInstruction) : Transaction :=
  {| instructions := instructions tx ++ [ix];
     feePayer := feePayer tx;
     recentBlockhash := recentBlockhash tx;
     signatures := signatures tx |}.

Definition set_feePayer (tx : Transaction) (k : PublicKey) : Transaction :=
  {| instructions := instructions tx;
     feePayer := Some k;
     recentBlockhash := recentBlockhash tx;
     signatures := signatures tx |}.

Definition set_recentBlockhash (tx : Transaction) (h : string) : Transaction :=
  {| instructions := instructions tx;
     feePayer := feePayer tx;
     recentBlockhash := Some h;
     signatures := signatures tx |}.

Definition Transaction_sign (tx : Transaction) (signers : list Keypair) : Transaction :=
  {| instructions := instructions tx;
     feePayer := feePayer tx;
     recentBlockhash := recentBlockhash tx;
     signatures := map publicKey signers |}.

(** [ai.data?.length ?? 0] *)
Definition data_length (ai : AccountInfo) : Z :=
  match data ai with
  | Some d => Z.of_nat (List.length d)
  | None => 0
  end.

(** Where the payer key pair comes from: the file system and the key
    generator of the host. *)
Inductive KeyFile := FileMissing | FileLoaded (kp : Keypair) | FileCorrupt (msg : string).

Record Host := {
  defaultKeypairPath : string;
  readKeypair : string -> KeyFile;
  generated : Keypair
}.

Section Library.
Context {W : Web3} (cluster : Cluster).

(** *** Program-address derivation *)

(** Modelled from the spec: [PublicKey.findProgramAddressSync] is code of
    [@solana/web3.js], which is not under [src/].  The hasher of section
    4.1 digests the concatenation of all seed bytes, then the program
    id, then a fixed domain-separation suffix; the curve test is
    [is_on_curve].  Section 4.1 also bounds the seed length without
    giving the bound; seeds are taken to be within it. *)
Definition hash_input (program : PublicKey) (seeds : list (list byte)) : list byte :=
  List.concat seeds ++ toBuffer program ++ pda_marker.

(** Modelled from the spec: the candidate address of section 4.2 for one
    bump, the seeds with a single trailing bump byte, hashed. *)
Definition candidate (program : PublicKey) (seeds : list (list byte)) (bump : nat)
  : PublicKey :=
  hashv (hash_input program (seeds ++ [[u8 (Z.of_nat bump)]])).

(** Modelled from the spec: the bump search of section 4.2, from [bump]
    downwards to 0, accepting the first candidate that is off the curve. *)
Fixpoint search (program : PublicKey) (seeds : list (list byte)) (bump : nat)
  : Result (PublicKey * nat) :=
  let address := candidate program seeds bump in
  if is_on_curve address then
    match bump with
    | O => Throw DerivationExhausted
    | S lower => search program seeds lower
    end
  else Ok (address, bump).

(** Modelled from the spec: [derive(programId, seeds)] of section 4.2. *)
Definition derive (program : PublicKey) (seeds : list (list byte))
  : Result (PublicKey * nat) :=
  search program seeds 255.

(** The call as the scripts make it: it is recorded in the trace and
    returns what [derive] returns. *)
Definition findProgramAddressSync (seeds : list (list byte)) (program : PublicKey)
  : M (PublicKey * nat) :=
  emit (FindProgramAddress seeds program) ;; lift (derive program seeds).

Definition new_PublicKey (text : string) : M PublicKey :=
  match fromBase58 text with
  | Some k => ret k
  | None => throw (InvalidPublicKey text)
  end.

(** *** The connection *)

Definition getAccountInfo (c : Connection) (pk : PublicKey) : M (option AccountInfo) :=
  fun tr => (reply_getAccountInfo cluster c tr pk, tr ++ [Rpc c (GetAccountInfo pk)]).

Definition getVersion (c : Connection) : M string :=
  fun tr => (reply_getVersion cluster c tr, tr ++ [Rpc c GetVersion]).

Definition getLatestBlockhash (c : Connection) : M string :=
  fun tr => (reply_getLatestBlockhash cluster c tr, tr ++ [Rpc c GetLatestBlockhash]).

Definition simulateTransaction (c : Connection) (tx : Transaction) (signers : list Keypair)
  : M SimulatedResult :=
  fun tr => (reply_simulateTransaction cluster c tr tx signers,
             tr ++ [Rpc c (SimulateTransaction tx signers)]).
End Library.

(** ** interact-percolator.js *)

Module Interact.

(** The recognised command-line flags, after the parsing loop. *)
Record Opts := {
  simulate : bool;
  rpc : option string;
  router : option string;
  slab : option string;
  market : option JsString;
  user : option string;
  mint : option string;
  payer : option string
}.

(** The environment variables the script reads. *)
Record Env := {
  env_RPC_URL : option string;
  env_MARKET : option JsString;
  env_SIMULATE : option string;
  env_ROUTER_ID : option string;
  env_SLAB_ID : option string;
  env_PAYER : option string;
  env_USER : option string;
  env_MINT : option string
}.

Record Config := {
  RPC_URL : string;
  MARKET : JsString;
  SIMULATE : bool;
  ROUTER_ID : PublicKey;
  SLAB_ID : PublicKey;
  SYSTEM_ID : PublicKey;
  MEMO_ID : PublicKey
}.

(** The seven addresses of the derivation block. *)
Record PDAs := {
  vaultPda : PublicKey;
  escrowPda : PublicKey;
  capPda : PublicKey;
  portfolioPda : PublicKey;
  registryPda : PublicKey;
  slabStatePda : PublicKey;
  authorityPda : PublicKey
}.

(** The object [fetchMeta] returns: [{ exists: false }] or the populated
    one. *)
Inductive Meta :=
| MetaAbsent
| MetaFound (lamports_ : Z) (executable_ : bool) (owner_ : string) (dataLen : Z).

Definition exists_ (m : Meta) : bool :=
  match m with MetaAbsent => false | MetaFound _ _ _ _ => true end.


Section Run.
Context {W : Web3} (cluster : Cluster) (host : Host) (opts : Opts) (env : Env).

(** Lines 64-74: the module-level constants. *)
Definition load_config : M Config :=
  let rpc_url := or_else (rpc opts) (or_else (env_RPC_URL env) "http://127.0.0.1:8899") in
  let market_ := or_else_js (market opts) (or_else_js (env_MARKET env) (js "BTC-PERP")) in
  let simulate_ :=
    simulate opts
    || match env_SIMULATE env with Some s => String.eqb s "1" | None => false end in
  router_id <- new_PublicKey
    (or_else (router opts)
       (or_else (env_ROUTER_ID env) "RoutR1VdCpHqj89WEMJhb6TkGT9cPfr1rVjhM3e2YQr")) ;;
  slab_id <- new_PublicKey
    (or_else (slab opts)
       (or_else (env_SLAB_ID env) "SLabZ6PsDLh2X6HzEoqxFDMqCVcJXDKCNEYuPzUvGPk")) ;;
  system_id <- new_PublicKey "11111111111111111111111111111111" ;;
  memo_id <- new_PublicKey "MemoSq4gqABAXKb96qnH8TysNcWxMyWCqXgDLGmfcHr" ;;
  ret {| RPC_URL := rpc_url; MARKET := market_; SIMULATE := simulate_;
         ROUTER_ID := router_id; SLAB_ID := slab_id;
         SYSTEM_ID := system_id; MEMO_ID := memo_id |}.

Definition tryLoadPayer : M Keypair :=
  let candidate :=
    or_else (payer opts) (or_else (env_PAYER env) (defaultKeypairPath host)) in
  match readKeypair host candidate with
  | FileLoaded kp => ret kp
  | FileCorrupt msg =>
      console (OutWarnLoadFailed candidate msg) ;;
      console OutWarnEphemeral ;;
      ret (generated host)
  | FileMissing =>
      console OutWarnEphemeral ;;
      ret (generated host)
  end.

Definition getPresence (connection : Connection) (program : PublicKey) : M Presence :=
  info <- getAccountInfo cluster connection program ;;
  match info with
  | None => ret NotFound
  | Some i => ret (if executable i then ExecutableProgram else NonExecutableAccount)
  end.

Definition simulateNoop (connection : Connection) (payer_ : Keypair) (program : PublicKey)
  : M SimulatedResult :=
  let ix := {| keys := [ {| pubkey := publicKey payer_;
                            isSigner := true;
                            isWritable := false |} ];
               programId := program;
               ix_data := [] |} in
  let tx := Transaction_add new_Transaction ix in
  let tx := set_feePayer tx (publicKey payer_) in
  blockhash <- getLatestBlockhash cluster connection ;;
  let tx := set_recentBlockhash tx blockhash in
  let tx := Transaction_sign tx [payer_] in
  res <- simulateTransaction cluster connection tx [payer_] ;;
  ret res.

(** Lines 122-126: the USER and MINT roots. *)
Definition default_USER (payer_ : Keypair) : M PublicKey :=
  match truthy (user opts) with
  | Some text => new_PublicKey text
  | None =>
      match truthy (env_USER env) with
      | Some text => new_PublicKey text
      | None => ret (publicKey payer_)
      end
  end.

Definition default_MINT (USER : PublicKey) : M PublicKey :=
  match truthy (mint opts) with
  | Some text => new_PublicKey text
  | None =>
      match truthy (env_MINT env) with
      | Some text => new_PublicKey text
      | None => ret USER
      end
  end.

(** Lines 155-198: the derivation block, with its console lines. *)
Definition derivePDAs (cfg : Config) (USER MINT : PublicKey) : M PDAs :=
  console (OutText "Deriving Router PDAs...") ;;
  ' (vaultPda_, _) <- findProgramAddressSync
    [Buffer_from (js "vault"); toBuffer MINT] (ROUTER_ID cfg) ;;
  let marketSeed := Buffer_from (MARKET cfg) in
  ' (slabStatePda_, _) <- findProgramAddressSync
    [Buffer_from (js "slab"); marketSeed] (SLAB_ID cfg) ;;
  ' (escrowPda_, _) <- findProgramAddressSync
    [Buffer_from (js "escrow"); toBuffer USER; toBuffer slabStatePda_; toBuffer MINT]
    (ROUTER_ID cfg) ;;
  nonceU64 <- lift (u64LE 1) ;;
  ' (capPda_, _) <- findProgramAddressSync
    [Buffer_from (js "cap"); toBuffer USER; toBuffer slabStatePda_; toBuffer MINT; nonceU64]
    (ROUTER_ID cfg) ;;
  ' (portfolioPda_, _) <- findProgramAddressSync
    [Buffer_from (js "portfolio"); toBuffer USER] (ROUTER_ID cfg) ;;
  ' (registryPda_, _) <- findProgramAddressSync
    [Buffer_from (js "registry")] (ROUTER_ID cfg) ;;
  console (OutPda "Vault     PDA:" (toBase58 vaultPda_)) ;;
  console (OutPda "Escrow    PDA:" (toBase58 escrowPda_)) ;;
  console (OutPdaNote "Cap       PDA:" (toBase58 capPda_) "(nonce=1)") ;;
  console (OutPda "Portfolio PDA:" (toBase58 portfolioPda_)) ;;
  console (OutPda "Registry  PDA:" (toBase58 registryPda_)) ;;
  console (OutText "") ;;
  console (OutText "Deriving Slab PDAs...") ;;
  ' (authorityPda_, _) <- findProgramAddressSync
    [Buffer_from (js "authority"); toBuffer slabStatePda_] (SLAB_ID cfg) ;;
  console (OutPda "Slab State PDA:" (toBase58 slabStatePda_)) ;;
  console (OutPda "Authority  PDA:" (toBase58 authorityPda_)) ;;
  console (OutText "") ;;
  ret {| vaultPda := vaultPda_; escrowPda := escrowPda_; capPda := capPda_;
         portfolioPda := portfolioPda_; registryPda := registryPda_;
         slabStatePda := slabStatePda_; authorityPda := authorityPda_ |}.

Definition fetchMeta (connection : Connection) (pubkey_ : PublicKey) : M Meta :=
  ai <- getAccountInfo cluster connection pubkey_ ;;
  match ai with
  | None => ret MetaAbsent
  | Some ai =>
      ret (MetaFound (lamports ai) (executable ai) (toBase58 (owner ai)) (data_length ai))
  end.

Definition targets (cfg : Config) (p : PDAs) : list (string * PublicKey) :=
  [ ("System", SYSTEM_ID cfg);
    ("Memo", MEMO_ID cfg);
    ("Router", ROUTER_ID cfg);
    ("Slab", SLAB_ID cfg);
    ("Vault PDA", vaultPda p);
    ("Escrow PDA", escrowPda p);
    ("Cap PDA", capPda p);
    ("Portfolio PDA", portfolioPda p);
    ("Registry PDA", registryPda p);
    ("Slab State PDA", slabStatePda p);
    ("Authority PDA", authorityPda p) ].

(** The body of the loop of lines 228-238. *)
Definition reportMeta (connection : Connection) (target : string * PublicKey) : M unit :=
  let '(label, pk) := target in
  meta <- fetchMeta connection pk ;;
  match meta with
  | MetaAbsent => console (OutMetaNotFound label (toBase58 pk))
  | MetaFound lamports_ executable_ owner_ dataLen =>
      console (OutMetaFound label (toBase58 pk) owner_ executable_ dataLen lamports_)
  end.

(** Lines 243-255 for the Router and 257-269 for the Slab: the same
    block, once per program. *)
Definition simulateBlock (who : Target) (presence : Presence)
  (connection : Connection) (payer_ : Keypair) (program : PublicKey) : M unit :=
  if is_executable_program presence then
    console (OutSimulating who) ;;
    try_catch
      (res <- simulateNoop connection payer_ program ;;
       console (OutLogs who (match sim_logs res with Some l => l | None => [] end)) ;;
       console (OutErr who (truthy (sim_err res))))
      (fun e => console (OutSimulateFailed who (message e))) ;;
    console (OutText "")
  else console (OutSkipping who).

Definition main_body (cfg : Config) : M unit :=
  let connection := {| rpcEndpoint := RPC_URL cfg; commitment := "confirmed" |} in
  payer_ <- tryLoadPayer ;;
  USER <- default_USER payer_ ;;
  MINT <- default_MINT USER ;;
  version <- try_catch (getVersion cluster connection) (fun _ => ret "{}") ;;
  console (OutField "RPC_URL      :" (RPC_URL cfg)) ;;
  console (OutField "RPC version  :" version) ;;
  console (OutField "PAYER pubkey :" (toBase58 (publicKey payer_))) ;;
  console (OutField "USER  pubkey :" (toBase58 USER)) ;;
  console (OutField "MINT  pubkey :" (toBase58 MINT)) ;;
  console (OutMarket (MARKET cfg)) ;;
  console (OutField "SIMULATE     :" (if SIMULATE cfg then "yes" else "no")) ;;
  console (OutText "") ;;
  console (OutText "Checking program presence...") ;;
  ' (systemPresence, memoPresence, routerPresence, slabPresence) <-
    Promise_all4 (getPresence connection (SYSTEM_ID cfg))
                 (getPresence connection (MEMO_ID cfg))
                 (getPresence connection (ROUTER_ID cfg))
                 (getPresence connection (SLAB_ID cfg)) ;;
  console (OutPresence "System:" (toBase58 (SYSTEM_ID cfg)) systemPresence) ;;
  console (OutPresence "Memo  :" (toBase58 (MEMO_ID cfg)) memoPresence) ;;
  console (OutPresence "Router:" (toBase58 (ROUTER_ID cfg)) routerPresence) ;;
  console (OutPresence "Slab  :" (toBase58 (SLAB_ID cfg)) slabPresence) ;;
  console (OutText "") ;;
  p <- derivePDAs cfg USER MINT ;;
  console (OutText "Fetching account metas (exists / size / owner)...") ;;
  for_of (targets cfg p) (reportMeta connection) ;;
  console (OutText "") ;;
  (if SIMULATE cfg then
     simulateBlock Router routerPresence connection payer_ (ROUTER_ID cfg) ;;
     simulateBlock Slab slabPresence connection payer_ (SLAB_ID cfg)
   else ret tt) ;;
  console (OutText "Done.").

(** The script: the constants, then the async body with its [catch]. *)
Definition main : M unit :=
  cfg <- load_config ;;
  try_catch (main_body cfg)
    (fun e => console (OutFatal e) ;; console (OutExit 1)).
End Run.
End Interact.

(** ** dashboard.js *)

Module Dashboard.

Record Env := {
  env_RPC_URL : option string;
  env_PAYER : option string
}.

(** [req.query] of [/api/status]. *)
Record Query := {
  rpc : option string;
  router : option string;
  slab : option string;
  market : option JsString
}.

Definition DEFAULT_MARKET : JsString := js "BTC-PERP".
Definition DEFAULT_ROUTER : string := "RoutR1VdCpHqj89WEMJhb6TkGT9cPfr1rVjhM3e2YQr".
Definition DEFAULT_SLAB : string := "SLabZ6PsDLh2X6HzEoqxFDMqCVcJXDKCNEYuPzUvGPk".
Definition SYSTEM_ID : string := "11111111111111111111111111111111".
Definition MEMO_ID : string := "MemoSq4gqABAXKb96qnH8TysNcWxMyWCqXgDLGmfcHr".

(** What [getPresence] returns: [{ status: 'not found' }] or the status
    with the account's figures. *)
Inductive PresenceInfo :=
| PresenceAbsent
| PresenceOf (status : Presence) (lamports_ : Z) (owner_ : string) (dataLen : Z).

Definition status_of (i : PresenceInfo) : Presence :=
  match i with PresenceAbsent => NotFound | PresenceOf s _ _ _ => s end.

(** The argument object of [deriveAllPDAs]. *)
Record Roots := {
  routerPk : string;
  slabPk : string;
  userPk : string;
  mintPk : string;
  market_ : JsString
}.

(** The object [deriveAllPDAs] returns: seven base-58 strings. *)
Record PDAs := {
  vaultPda : string;
  escrowPda : string;
  capPda : string;
  portfolioPda : string;
  registryPda : string;
  slabStatePda : string;
  authorityPda : string
}.

Inductive Meta :=
| MetaAbsent
| MetaFound (base58 : string) (lamports_ : Z) (executable_ : bool) (owner_ : string)
            (dataLen : Z).

Definition exists_ (m : Meta) : bool :=
  match m with MetaAbsent => false | MetaFound _ _ _ _ _ => true end.

Record PresenceRow := { p_label : string; p_pubkey : string; p_info : PresenceInfo }.

Record MetaRow := {
  m_label : string;
  m_pubkey : string;
  m_owner : option string;
  m_exec : option bool;
  m_data : option Z;
  m_lamports : option Z
}.

Record StatusBody := {
  body_rpc_url : string;
  body_rpc_version : string;
  body_payer : string;
  body_user : string;
  body_mint : string;
  body_presence : list PresenceRow;
  body_pdas : list (string * string);
  body_metas : list MetaRow
}.

Inductive Response :=
| Json200 (body : StatusBody)
| Json500 (error : string).

Section Server.
Context {W : Web3} (cluster : Cluster) (host : Host) (env : Env).

Definition DEFAULT_RPC : string := or_else (env_RPC_URL env) "http://127.0.0.1:8899".

Definition tryLoadPayer : M Keypair :=
  let candidate := or_else (env_PAYER env) (defaultKeypairPath host) in
  match readKeypair host candidate with
  | FileLoaded kp => ret kp
  | FileCorrupt msg =>
      console (OutWarnLoadFailed candidate msg) ;;
      console OutWarnEphemeral ;;
      ret (generated host)
  | FileMissing =>
      console OutWarnEphemeral ;;
      ret (generated host)
  end.

Definition getPresence (connection : Connection) (pk : string) : M PresenceInfo :=
  key <- new_PublicKey pk ;;
  info <- getAccountInfo cluster connection key ;;
  match info with
  | None => ret PresenceAbsent
  | Some i =>
      ret (PresenceOf (if executable i then ExecutableProgram else NonExecutableAccount)
                      (lamports i) (toBase58 (owner i)) (data_length i))
  end.

Definition deriveAllPDAs (roots : Roots) : M PDAs :=
  ROUTER_ID <- new_PublicKey (routerPk roots) ;;
  SLAB_ID <- new_PublicKey (slabPk roots) ;;
  USER <- new_PublicKey (userPk roots) ;;
  MINT <- new_PublicKey (mintPk roots) ;;
  ' (vaultPda_, _) <- findProgramAddressSync
    [Buffer_from (js "vault"); toBuffer MINT] ROUTER_ID ;;
  let marketSeed := Buffer_from (market_ roots) in
  ' (slabStatePda_, _) <- findProgramAddressSync
    [Buffer_from (js "slab"); marketSeed] SLAB_ID ;;
  ' (escrowPda_, _) <- findProgramAddressSync
    [Buffer_from (js "escrow"); toBuffer USER; toBuffer slabStatePda_; toBuffer MINT]
    ROUTER_ID ;;
  nonceU64 <- lift (u64LE 1) ;;
  ' (capPda_, _) <- findProgramAddressSync
    [Buffer_from (js "cap"); toBuffer USER; toBuffer slabStatePda_; toBuffer MINT; nonceU64]
    ROUTER_ID ;;
  ' (portfolioPda_, _) <- findProgramAddressSync
    [Buffer_from (js "portfolio"); toBuffer USER] ROUTER_ID ;;
  ' (registryPda_, _) <- findProgramAddressSync
    [Buffer_from (js "registry")] ROUTER_ID ;;
  ' (authorityPda_, _) <- findProgramAddressSync
    [Buffer_from (js "authority"); toBuffer slabStatePda_] SLAB_ID ;;
  ret {| vaultPda := toBase58 vaultPda_;
         escrowPda := toBase58 escrowPda_;
         capPda := toBase58 capPda_;
         portfolioPda := toBase58 portfolioPda_;
         registryPda := toBase58 registryPda_;
         slabStatePda := toBase58 slabStatePda_;
         authorityPda := toBase58 authorityPda_ |}.

Definition fetchMeta (connection : Connection) (base58 : string) : M Meta :=
  key <- new_PublicKey base58 ;;
  ai <- getAccountInfo cluster connection key ;;
  match ai with
  | None => ret MetaAbsent
  | Some ai =>
      ret (MetaFound base58 (lamports ai) (executable ai) (toBase58 (owner ai))
                     (data_length ai))
  end.

(** One element of the array handed to [Promise.all] (lines 558-561). *)
Definition presenceRow (connection : Connection) (label pk : string) : M PresenceRow :=
  info <- getPresence connection pk ;;
  ret {| p_label := label; p_pubkey := pk; p_info := info |}.

Definition pdaRows (p : PDAs) : list (string * string) :=
  [ ("Vault PDA", vaultPda p);
    ("Escrow PDA", escrowPda p);
    ("Cap PDA (nonce=1)", capPda p);
    ("Portfolio PDA", portfolioPda p);
    ("Registry PDA", registryPda p);
    ("Slab State PDA", slabStatePda p);
    ("Authority PDA", authorityPda p) ].

(** The body of the loop of lines 585-595. *)
Definition metaRow (connection : Connection) (entry : string * string) : M MetaRow :=
  let '(label, pk) := entry in
  key <- new_PublicKey pk ;;
  ai <- getAccountInfo cluster connection key ;;
  ret {| m_label := label;
         m_pubkey := pk;
         m_owner := match ai with Some i => Some (toBase58 (owner i)) | None => None end;
         m_exec := match ai with Some i => Some (executable i) | None => None end;
         m_data := match ai with Some i => Some (data_length i) | None => None end;
         m_lamports := match ai with Some i => Some (lamports i) | None => None end |}.

(** The part of the handler inside [try]. *)
Definition status_body (rpc_ routerPk_ slabPk_ : string) (market : JsString)
  : M StatusBody :=
  let connection := {| rpcEndpoint := rpc_; commitment := "confirmed" |} in
  version <- try_catch (getVersion cluster connection) (fun _ => ret "{}") ;;
  payer <- tryLoadPayer ;;
  let userPk_ := toBase58 (publicKey payer) in
  let mintPk_ := userPk_ in
  pres <- Promise_all
    [ presenceRow connection "System" SYSTEM_ID;
      presenceRow connection "Memo" MEMO_ID;
      presenceRow connection "Router" routerPk_;
      presenceRow connection "Slab" slabPk_ ] ;;
  p <- deriveAllPDAs {| routerPk := routerPk_; slabPk := slabPk_;
                        userPk := userPk_; mintPk := mintPk_;
                        market_ := market |} ;;
  let pdas := pdaRows p in
  let labels :=
    [ ("System", SYSTEM_ID); ("Memo", MEMO_ID);
      ("Router", routerPk_); ("Slab", slabPk_) ] ++ pdas in
  metas <- for_push labels (metaRow connection) ;;
  ret {| body_rpc_url := rpc_;
         body_rpc_version := version;
         body_payer := userPk_;
         body_user := userPk_;
         body_mint := mintPk_;
         body_presence := pres;
         body_pdas := pdas;
         body_metas := metas |}.

(** [app.get('/api/status', ...)] *)
Definition api_status (query : Query) : M Response :=
  let rpc_ := or_else (rpc query) DEFAULT_RPC in
  let routerPk_ := or_else (router query) DEFAULT_ROUTER in
  let slabPk_ := or_else (slab query) DEFAULT_SLAB in
  let market := or_else_js (market query) DEFAULT_MARKET in
  try_catch
    (body <- status_body rpc_ routerPk_ slabPk_ market ;; ret (Json200 body))
    (fun e => ret (Json500 (error_text e))).
End Server.
End Dashboard.

(** ** interact-percolator.js: the command line *)

(** [const opts = {}] *)
Definition empty_opts : Interact.Opts :=
  {| Interact.simulate := false; Interact.rpc := None; Interact.router := None;
     Interact.slab := None; Interact.market := None; Interact.user := None;
     Interact.mint := None; Interact.payer := None |}.

Definition with_simulate (o : Interact.Opts) : Interact.Opts :=
  {| Interact.simulate := true; Interact.rpc := Interact.rpc o;
     Interact.router := Interact.router o; Interact.slab := Interact.slab o;
     Interact.market := Interact.market o; Interact.user := Interact.user o;
     Interact.mint := Interact.mint o; Interact.payer := Interact.payer o |}.

Definition with_rpc (o : Interact.Opts) (v : string) : Interact.Opts :=
  {| Interact.simulate := Interact.simulate o; Interact.rpc := Some v;
     Interact.router := Interact.router o; Interact.slab := Interact.slab o;
     Interact.market := Interact.market o; Interact.user := Interact.user o;
     Interact.mint := Interact.mint o; Interact.payer := Interact.payer o |}.

Definition with_router (o : Interact.Opts) (v : string) : Interact.Opts :=
  {| Interact.simulate := Interact.simulate o; Interact.rpc := Interact.rpc o;
     Interact.router := Some v; Interact.slab := Interact.slab o;
     Interact.market := Interact.market o; Interact.user := Interact.user o;
     Interact.mint := Interact.mint o; Interact.payer := Interact.payer o |}.

Definition with_slab (o : Interact.Opts) (v : string) : Interact.Opts :=
  {| Interact.simulate := Interact.simulate o; Interact.rpc := Interact.rpc o;
     Interact.router := Interact.router o; Interact.slab := Some v;
     Interact.market := Interact.market o; Interact.user := Interact.user o;
     Interact.mint := Interact.mint o; Interact.payer := Interact.payer o |}.

Definition with_market_opt (o : Interact.Opts) (v : string) : Interact.Opts :=
  {| Interact.simulate := Interact.simulate o; Interact.rpc := Interact.rpc o;
     Interact.router := Interact.router o; Interact.slab := Interact.slab o;
     Interact.market := Some (js v); Interact.user := Interact.user o;
     Interact.mint := Interact.mint o; Interact.payer := Interact.payer o |}.

Definition with_user (o : Interact.Opts) (v : string) : Interact.Opts :=
  {| Interact.simulate := Interact.simulate o; Interact.rpc := Interact.rpc o;
     Interact.router := Interact.router o; Interact.slab := Interact.slab o;
     Interact.market := Interact.market o; Interact.user := Some v;
     Interact.mint := Interact.mint o; Interact.payer := Interact.payer o |}.

Definition with_mint (o : Interact.Opts) (v : string) : Interact.Opts :=
  {| Interact.simulate := Interact.simulate o; Interact.rpc := Interact.rpc o;
     Interact.router := Interact.router o; Interact.slab := Interact.slab o;
     Interact.market := Interact.market o; Interact.user := Interact.user o;
     Interact.mint := Some v; Interact.payer := Interact.payer o |}.

Definition with_payer (o : Interact.Opts) (v : string) : Interact.Opts :=
  {| Interact.simulate := Interact.simulate o; Interact.rpc := Interact.rpc o;
     Interact.router := Interact.router o; Interact.slab := Interact.slab o;
     Interact.market := Interact.market o; Interact.user := Interact.user o;
     Interact.mint := Interact.mint o; Interact.payer := Some v |}.

(** How the argument loop ends: with the options, or in [--help], which
    prints the usage and exits. *)
Inductive CommandLine :=
| Options (opts : Interact.Opts)
| Help.

(** Lines 50-61.  An argument is the string of its characters, each a
    code unit below 256.  [next] is [argv[i+1]]; a flag that takes a value
    only matches when [argv[i+1]] is truthy, and then skips it
    ([argv[++i]]). *)
Fixpoint parse_argv (argv : list string) (opts : Interact.Opts) : CommandLine :=
  match argv with
  | [] => Options opts
  | a :: rest =>
      if String.eqb a "--help" || String.eqb a "-h" then Help
      else if String.eqb a "--simulate" || String.eqb a "-s"
      then parse_argv rest (with_simulate opts)
      else
        match rest with
        | next :: rest' =>
            if String.eqb next "" then parse_argv rest opts
            else if String.eqb a "--rpc" || String.eqb a "-r"
            then parse_argv rest' (with_rpc opts next)
            else if String.eqb a "--router" then parse_argv rest' (with_router opts next)
            else if String.eqb a "--slab" then parse_argv rest' (with_slab opts next)
            else if String.eqb a "--market" then parse_argv rest' (with_market_opt opts next)
            else if String.eqb a "--user" then parse_argv rest' (with_user opts next)
            else if String.eqb a "--mint" then parse_argv rest' (with_mint opts next)
            else if String.eqb a "--payer" then parse_argv rest' (with_payer opts next)
            else parse_argv rest opts
        | [] => parse_argv rest opts
        end
  end.

Definition newline : string := String (ascii_of_nat 10) "".

Definition usage_text : string :=
  String.concat newline
    [ "";
      "Usage:";
      "  node interact-percolator.js --rpc <url> [--simulate] [--router <pk>] [--slab <pk>] [--market <str>] [--user <pk>] [--mint <pk>] [--payer <file>]";
      "";
      "Examples:";
      "  node interact-percolator.js --rpc https://api.devnet.solana.com --simulate";
      "  node interact-percolator.js --rpc http://127.0.0.1:8899 --router <ROUTER_PUBKEY> --slab <SLAB_PUBKEY> --simulate";
      "" ].

Definition printUsage : M unit := console (OutText usage_text).

(** The whole of interact-percolator.js, from [process.argv.slice(2)]. *)
Definition script {W : Web3} (cluster : Cluster) (host : Host) (env : Interact.Env)
  (argv : list string) : M unit :=
  match parse_argv argv empty_opts with
  | Help => printUsage ;; console (OutExit 0)
  | Options opts => Interact.main cluster host opts env
  end.

(** ** dashboard.js: the script of the page *)

Module Page.

Definition dquote : string := String (ascii_of_nat 34) "".

Definition pill (text : string) (ok : bool) : string :=
  let cls := String.append "pill " (if ok then "ok" else "warn") in
  String.concat ""
    [ "<span class="; dquote; cls; dquote; ">"; text; "</span>" ].

(** [s.includes(sub)] *)
Fixpoint includes (s sub : string) : bool :=
  String.prefix sub s
  || match s with
     | EmptyString => false
     | String _ s' => includes s' sub
     end.

(** The third cell of a presence row in [refresh] (lines 491-496). *)
Definition presenceCell (status : string) : string :=
  let ok := includes status "executable" in
  if ok then pill status true else pill status false.

(** The page's two variables, the text of the Auto button, and what the
    browser holds for the page: the intervals that are set, the next
    interval id, and how many times [refresh] has been called. *)
Record State := {
  auto : bool;
  timer : option nat;
  autoBtn : string;
  intervals : list nat;
  next_interval : nat;
  refreshes : nat
}.

(** A call of [refresh]; the request it sends and the tables it fills are
    not part of the state. *)
Definition refresh (s : State) : State :=
  {| auto := auto s; timer := timer s; autoBtn := autoBtn s;
     intervals := intervals s; next_interval := next_interval s;
     refreshes := S (refreshes s) |}.

(** [timer = setInterval(refresh, 2000)] *)
Definition setInterval_refresh (s : State) : State :=
  {| auto := auto s; timer := Some (next_interval s); autoBtn := autoBtn s;
     intervals := next_interval s :: intervals s;
     next_interval := S (next_interval s);
     refreshes := refreshes s |}.

(** [clearInterval(timer)]; clearing [null] or an id that is not set does
    nothing. *)
Definition clearInterval_timer (s : State) : State :=
  {| auto := auto s; timer := timer s; autoBtn := autoBtn s;
     intervals :=
       match timer s with
       | Some id => filter (fun i => negb (Nat.eqb i id)) (intervals s)
       | None => intervals s
       end;
     next_interval := next_interval s;
     refreshes := refreshes s |}.

Definition autoToggle (s : State) : State :=
  let auto_ := negb (auto s) in
  let s1 := {| auto := auto_; timer := timer s;
               autoBtn := String.append "Auto: " (if auto_ then "On" else "Off");
               intervals := intervals s; next_interval := next_interval s;
               refreshes := refreshes s |} in
  if auto_ then setInterval_refresh (refresh s1) else clearInterval_timer s1.

(** An interval fires: each interval that is set calls [refresh]. *)
Definition tick (s : State) : State :=
  fold_right (fun _ acc => refresh acc) s (intervals s).

(** The page once loaded: [auto = false, timer = null], the button as
    the markup has it, and the [refresh()] at the end of the script
    done. *)
Definition loaded : State :=
  {| auto := false; timer := None; autoBtn := "Auto: Off";
     intervals := []; next_interval := 1; refreshes := 1 |}.

(** What happens to the page after it is loaded. *)
Inductive Action := ClickAuto | Tick.

Definition step (s : State) (a : Action) : State :=
  match a with
  | ClickAuto => autoToggle s
  | Tick => tick s
  end.

End Page.

(** * Specification-side definitions

    The predicates and reference objects in which the properties below
    are stated. *)

(** ** Footprints of scripts *)

(** A computation is blind when neither its result nor the events it adds
    depend on the trace it starts from. *)
Definition blind {A} (m : M A) : Prop :=
  exists r evs, forall tr, m tr = (r, tr ++ evs).

(** [produces m Q]: from any trace, [m] only appends events, and the
    appended events satisfy [Q]. *)
Definition produces {A} (m : M A) (Q : list Event -> Prop) : Prop :=
  forall tr, exists evs, snd (m tr) = tr ++ evs /\ Q evs.

(** [emits m P]: every event [m] appends satisfies [P]. *)
Definition emits {A} (m : M A) (P : Event -> Prop) : Prop := produces m (Forall P).

(** ** The dry-run transaction *)



(** ** The reference topology *)

(** The seven nodes of the reference schema, as the specification lists
    them. *)
Inductive Node := vault | registry | portfolio | slab_state | escrow | cap | authority.

Record RootSet := {
  root_user : PublicKey;
  root_mint : PublicKey;
  root_market : JsString;
  root_nonce : Z
}.

Record ProgramIds := { router_id : PublicKey; slab_id : PublicKey }.

(** An unsigned 64-bit integer as eight little-endian bytes. *)
Definition u64_le (n : Z) : list byte :=
  map (fun i => u8 (Z.shiftr n (8 * Z.of_nat i))) (seq 0 8).

Definition node_program (ids : ProgramIds) (n : Node) : PublicKey :=
  match n with
  | slab_state | authority => slab_id ids
  | vault | registry | portfolio | escrow | cap => router_id ids
  end.

(** The seeds of each node, in schema order; [slabState] is the derived
    address of the slab-state node. *)
Definition node_seeds (roots : RootSet) (slabState : PublicKey) (n : Node)
  : list (list byte) :=
  match n with
  | vault => [Buffer_from (js "vault"); root_mint roots]
  | registry => [Buffer_from (js "registry")]
  | portfolio => [Buffer_from (js "portfolio"); root_user roots]
  | slab_state => [Buffer_from (js "slab"); Buffer_from (root_market roots)]
  | escrow => [Buffer_from (js "escrow"); root_user roots; slabState; root_mint roots]
  | cap => [Buffer_from (js "cap"); root_user roots; slabState; root_mint roots;
            u64_le (root_nonce roots)]
  | authority => [Buffer_from (js "authority"); slabState]
  end.

Definition node_derivation (ids : ProgramIds) (roots : RootSet) (slabState : PublicKey)
  (n : Node) : Event :=
  FindProgramAddress (node_seeds roots slabState n) (node_program ids n).

Definition depends_on_slab_state (n : Node) : bool :=
  match n with
  | escrow | cap | authority => true
  | vault | registry | portfolio | slab_state => false
  end.

(** The order in which both scripts derive the nodes. *)
Definition evaluation_order : list Node :=
  [vault; slab_state; escrow; cap; portfolio; registry; authority].

Definition is_derivation (e : Event) : bool :=
  match e with FindProgramAddress _ _ => true | _ => false end.

Definition dashboard_pda (p : Dashboard.PDAs) (n : Node) : string :=
  match n with
  | vault => Dashboard.vaultPda p
  | registry => Dashboard.registryPda p
  | portfolio => Dashboard.portfolioPda p
  | slab_state => Dashboard.slabStatePda p
  | escrow => Dashboard.escrowPda p
  | cap => Dashboard.capPda p
  | authority => Dashboard.authorityPda p
  end.

Definition interact_pda (p : Interact.PDAs) (n : Node) : PublicKey :=
  match n with
  | vault => Interact.vaultPda p
  | registry => Interact.registryPda p
  | portfolio => Interact.portfolioPda p
  | slab_state => Interact.slabStatePda p
  | escrow => Interact.escrowPda p
  | cap => Interact.capPda p
  | authority => Interact.authorityPda p
  end.

Definition node_label (n : Node) : string :=
  match n with
  | vault => "vault"
  | registry => "registry"
  | portfolio => "portfolio"
  | slab_state => "slab"
  | escrow => "escrow"
  | cap => "cap"
  | authority => "authority"
  end.

(** The first byte of each node's label. *)
Definition node_initial (n : Node) : byte :=
  match n with
  | vault => x76
  | registry => x72
  | portfolio => x70
  | slab_state => x73
  | escrow => x65
  | cap => x63
  | authority => x61
  end.

Section Preimages.
Context {W : Web3}.

(** What is hashed for node [n] at bump [bump]. *)
Definition topology_preimage (ids : ProgramIds) (roots : RootSet) (slabState : PublicKey)
  (n : Node) (bump : nat) : list byte :=
  hash_input (node_program ids n) (node_seeds roots slabState n ++ [[u8 (Z.of_nat bump)]]).

(** The hash has no collision among the candidates of one topology. *)
Definition collision_free_on_topology (ids : ProgramIds) (roots : RootSet)
  (slabState : PublicKey) : Prop :=
  forall n m b b',
    (b <= 255)%nat -> (b' <= 255)%nat ->
    hashv (topology_preimage ids roots slabState n b)
    = hashv (topology_preimage ids roots slabState m b') ->
    topology_preimage ids roots slabState n b = topology_preimage ids roots slabState m b'.

End Preimages.




(** ** Account reads *)


Section ReadsAnswered.
Context (cluster : Cluster).



End ReadsAnswered.



(** ** The dry-run gate *)




(** The classification [getPresence] gives to the answer of a read. *)
Definition classify (reply : option AccountInfo) : Presence :=
  match reply with
  | None => NotFound
  | Some i => if executable i then ExecutableProgram else NonExecutableAccount
  end.

Section Gate.
Context {W : Web3}.



End Gate.

(** ** Command lines *)

(** The flags that take a value, in each spelling. *)
Inductive ValueFlag :=
| FlagRpc | FlagR | FlagRouter | FlagSlab | FlagMarket | FlagUser | FlagMint | FlagPayer.

Definition flag_text (f : ValueFlag) : string :=
  match f with
  | FlagRpc => "--rpc"
  | FlagR => "-r"
  | FlagRouter => "--router"
  | FlagSlab => "--slab"
  | FlagMarket => "--market"
  | FlagUser => "--user"
  | FlagMint => "--mint"
  | FlagPayer => "--payer"
  end.

Definition set_flag (f : ValueFlag) (v : string) (o : Interact.Opts) : Interact.Opts :=
  match f with
  | FlagRpc | FlagR => with_rpc o v
  | FlagRouter => with_router o v
  | FlagSlab => with_slab o v
  | FlagMarket => with_market_opt o v
  | FlagUser => with_user o v
  | FlagMint => with_mint o v
  | FlagPayer => with_payer o v
  end.

(** What a user means to say on the command line. *)
Inductive Setting :=
| Simulate (short : bool)
| Value (f : ValueFlag) (v : string).

(** The arguments that say it. *)
Definition render (s : Setting) : list string :=
  match s with
  | Simulate short => [if short then "-s" else "--simulate"]
  | Value f v => [flag_text f; v]
  end.

Definition apply_setting (o : Interact.Opts) (s : Setting) : Interact.Opts :=
  match s with
  | Simulate _ => with_simulate o
  | Value f v => set_flag f v o
  end.

Definition has_value (s : Setting) : Prop :=
  match s with
  | Simulate _ => True
  | Value _ v => v <> ""
  end.

(** ** Little-endian bytes *)

Definition le_value (bs : list byte) : Z :=
  fold_right (fun b acc => byte_to_Z b + 256 * acc) 0 bs.

(** ** Roots given as text *)



Definition router_text (opts : Interact.Opts) (env : Interact.Env) : string :=
  or_else (Interact.router opts)
    (or_else (Interact.env_ROUTER_ID env) "RoutR1VdCpHqj89WEMJhb6TkGT9cPfr1rVjhM3e2YQr").

Definition slab_text (opts : Interact.Opts) (env : Interact.Env) : string :=
  or_else (Interact.slab opts)
    (or_else (Interact.env_SLAB_ID env) "SLabZ6PsDLh2X6HzEoqxFDMqCVcJXDKCNEYuPzUvGPk").

Definition is_console (e : Event) : Prop :=
  match e with Console _ => True | _ => False end.

(** ** How a run ends *)

(** A line of the body of a run: anything but "Done.", "Fatal" and the
    exit. *)
Definition body_line (e : Event) : Prop :=
  match e with
  | Console (OutText line) => String.eqb line "Done." = false
  | Console (OutFatal _) => False
  | Console (OutExit _) => False
  | _ => True
  end.

(** A script that prints "Done." last when it completes, and nowhere
    else. *)
Definition ends_done (m : M unit) : Prop :=
  forall tr, exists evs,
    Forall body_line evs /\
    match m tr with
    | (Ok _, tr') => tr' = tr ++ evs ++ [Console (OutText "Done.")]
    | (Throw _, tr') => tr' = tr ++ evs
    end.

(** ** The version call *)

(** The same cluster with another answer to [getVersion]. *)
Definition with_version_reply (cluster : Cluster)
  (reply : Connection -> Trace -> Result string) : Cluster :=
  {| reply_getAccountInfo := reply_getAccountInfo cluster;
     reply_getVersion := reply;
     reply_getLatestBlockhash := reply_getLatestBlockhash cluster;
     reply_simulateTransaction := reply_simulateTransaction cluster |}.

Definition with_body_version (version : string) (r : Dashboard.Response)
  : Dashboard.Response :=
  match r with
  | Dashboard.Json200 b =>
      Dashboard.Json200
        {| Dashboard.body_rpc_url := Dashboard.body_rpc_url b;
           Dashboard.body_rpc_version := version;
           Dashboard.body_payer := Dashboard.body_payer b;
           Dashboard.body_user := Dashboard.body_user b;
           Dashboard.body_mint := Dashboard.body_mint b;
           Dashboard.body_presence := Dashboard.body_presence b;
           Dashboard.body_pdas := Dashboard.body_pdas b;
           Dashboard.body_metas := Dashboard.body_metas b |}
  | Dashboard.Json500 e => Dashboard.Json500 e
  end.

Definition map_result {A B} (f : A -> B) (r : Result A) : Result B :=
  match r with
  | Ok a => Ok (f a)
  | Throw e => Throw e
  end.

(** ** Transport calls *)

(** The transport calls among some events, in order, each with the
    connection it was made on. *)
Fixpoint rpc_calls (evs : list Event) : list (Connection * RpcCall) :=
  match evs with
  | [] => []
  | Rpc c call :: rest => (c, call) :: rpc_calls rest
  | _ :: rest => rpc_calls rest
  end.

Definition reads_on (c : Connection) (keys : list PublicKey) : list (Connection * RpcCall) :=
  map (fun key => (c, GetAccountInfo key)) keys.

(** An event of a request that only observes: a version call or an
    account read on connection [c], a derivation, or a console line that
    is not an exit. *)
Definition read_only_on (c : Connection) (e : Event) : Prop :=
  match e with
  | Rpc c' GetVersion => c' = c
  | Rpc c' (GetAccountInfo _) => c' = c
  | Rpc _ _ => False
  | Console (OutExit _) => False
  | _ => True
  end.

(** Every transport call is made on connection [c]. *)
Definition calls_on (c : Connection) (e : Event) : Prop :=
  match e with
  | Rpc c' _ => c' = c
  | _ => True
  end.


Definition is_simulation_call (call : Connection * RpcCall) : Prop :=
  match snd call with
  | GetLatestBlockhash => True
  | SimulateTransaction _ _ => True
  | _ => False
  end.

Definition no_call (e : Event) : Prop :=
  match e with Rpc _ _ => False | _ => True end.

(** ** The page *)

(** What holds of the page whatever the user does: the button shows the
    value of [auto]; when [auto] is on exactly one interval is set, the
    one [timer] holds; when it is off none is. *)
Definition page_invariant (s : Page.State) : Prop :=
  Page.autoBtn s = String.append "Auto: " (if Page.auto s then "On" else "Off") /\
  if Page.auto s
  then exists id, Page.timer s = Some id /\ Page.intervals s = [id]
  else Page.intervals s = [].

Fixpoint clicks (actions : list Page.Action) : nat :=
  match actions with
  | [] => 0
  | Page.ClickAuto :: rest => S (clicks rest)
  | Page.Tick :: rest => clicks rest
  end.

(** ** Sample instances

    A small library instance and a few clusters, on which the definitions
    above can be run. *)

Definition byte_sum (l : list byte) : Z :=
  fold_right (fun b acc => byte_to_Z b + acc) 0 l.

(** A hash without collisions (the identity), a curve test on the parity
    of the byte sum, and the byte-wise text form of a key. *)
Definition sample_web3 : Web3 :=
  {| hashv := fun input => input;
     is_on_curve := fun digest => Z.odd (byte_sum digest);
     pda_marker := Buffer_from (js "ProgramDerivedAddress");
     toBase58 := string_of_list_byte;
     fromBase58 := fun text => Some (list_byte_of_string text) |}.

(** A library instance whose curve test accepts every digest, so that no
    bump is ever off the curve. *)
Definition all_on_curve_web3 : Web3 :=
  {| hashv := fun input => input;
     is_on_curve := fun _ => true;
     pda_marker := Buffer_from (js "ProgramDerivedAddress");
     toBase58 := string_of_list_byte;
     fromBase58 := fun text => Some (list_byte_of_string text) |}.

Definition sample_key (tag : string) : PublicKey := list_byte_of_string tag.

Definition sample_account : AccountInfo :=
  {| lamports := 1141440;
     owner := sample_key "BPFLoader";
     executable := true;
     data := Some [u8 1; u8 2; u8 3] |}.

Definition sample_simulation : SimulatedResult :=
  {| sim_err := None; sim_logs := Some ["Program log: noop"] |}.

(** A cluster that never fails and on which the accounts are the ones
    [accounts] names. *)
Definition static_cluster (accounts : PublicKey -> option AccountInfo) : Cluster :=
  {| reply_getAccountInfo := fun _ _ pk => Ok (accounts pk);
     reply_getVersion := fun _ _ => Ok "1.18.0";
     reply_getLatestBlockhash := fun _ _ => Ok "blockhash-1";
     reply_simulateTransaction := fun _ _ _ _ => Ok sample_simulation |}.

Definition empty_cluster : Cluster := static_cluster (fun _ => None).

Definition is_read (e : Event) : bool :=
  match e with Rpc _ (GetAccountInfo _) => true | _ => false end.

Definition count_reads (tr : Trace) : nat := List.length (filter is_read tr).

(** A cluster on which every account exists and whose [n]-th account read
    (counting from 0) times out. *)
Definition flaky_cluster (n : nat) : Cluster :=
  {| reply_getAccountInfo := fun _ tr _ =>
       if Nat.eqb (count_reads tr) n
       then Throw (TransportError "timeout")
       else Ok (Some sample_account);
     reply_getVersion := fun _ _ => Ok "1.18.0";
     reply_getLatestBlockhash := fun _ _ => Ok "blockhash-1";
     reply_simulateTransaction := fun _ _ _ _ => Ok sample_simulation |}.

Definition sample_keypair : Keypair :=
  {| publicKey := sample_key "payer"; secretKey := sample_key "secret" |}.

Definition sample_host : Host :=
  {| defaultKeypairPath := "~/.config/solana/id.json";
     readKeypair := fun _ => FileLoaded sample_keypair;
     generated := {| publicKey := sample_key "ephemeral"; secretKey := [] |} |}.

Definition sample_connection : Connection :=
  {| rpcEndpoint := "http://127.0.0.1:8899"; commitment := "confirmed" |}.

Definition no_opts : Interact.Opts :=
  {| Interact.simulate := false; Interact.rpc := None; Interact.router := None;
     Interact.slab := None; Interact.market := None; Interact.user := None;
     Interact.mint := None; Interact.payer := None |}.

Definition no_env : Interact.Env :=
  {| Interact.env_RPC_URL := None; Interact.env_MARKET := None;
     Interact.env_SIMULATE := None; Interact.env_ROUTER_ID := None;
     Interact.env_SLAB_ID := None; Interact.env_PAYER := None;
     Interact.env_USER := None; Interact.env_MINT := None |}.

Definition no_dashboard_env : Dashboard.Env :=
  {| Dashboard.env_RPC_URL := None; Dashboard.env_PAYER := None |}.

Definition no_query : Dashboard.Query :=
  {| Dashboard.rpc := None; Dashboard.router := None;
     Dashboard.slab := None; Dashboard.market := None |}.

Definition sample_ids : ProgramIds :=
  {| router_id := sample_key "router"; slab_id := sample_key "slab" |}.

Definition sample_roots (nonce : Z) : RootSet :=
  {| root_user := sample_key "user";
     root_mint := sample_key "mint";
     root_market := js "BTC-PERP";
     root_nonce := nonce |}.

(** The argument object the dashboard builds for the sample roots. *)
Definition sample_root_texts : Dashboard.Roots :=
  {| Dashboard.routerPk := "router";
     Dashboard.slabPk := "slab";
     Dashboard.userPk := "user";
     Dashboard.mintPk := "mint";
     Dashboard.market_ := js "BTC-PERP" |}.

Definition sample_config : Interact.Config :=
  {| Interact.RPC_URL := "http://127.0.0.1:8899";
     Interact.MARKET := js "BTC-PERP";
     Interact.SIMULATE := true;
     Interact.ROUTER_ID := sample_key "router";
     Interact.SLAB_ID := sample_key "slab";
     Interact.SYSTEM_ID := sample_key "system";
     Interact.MEMO_ID := sample_key "memo" |}.

(** The slab-state address of the sample roots under [sample_web3]. *)
Definition sample_slab_state : PublicKey :=
  match derive (W := sample_web3) (slab_id sample_ids)
          (node_seeds (sample_roots 1) [] slab_state) with
  | Ok (address, _) => address
  | Throw _ => []
  end.

Definition sample_dashboard_run : Result Dashboard.PDAs * Trace :=
  Dashboard.deriveAllPDAs (W := sample_web3) sample_root_texts [].

Definition sample_cli_run : Result Interact.PDAs * Trace :=
  Interact.derivePDAs (W := sample_web3) sample_config
    (sample_key "user") (sample_key "mint") [].

Definition no_dashboard_pdas : Dashboard.PDAs :=
  {| Dashboard.vaultPda := ""; Dashboard.escrowPda := ""; Dashboard.capPda := "";
     Dashboard.portfolioPda := ""; Dashboard.registryPda := "";
     Dashboard.slabStatePda := ""; Dashboard.authorityPda := "" |}.

Definition no_cli_pdas : Interact.PDAs :=
  {| Interact.vaultPda := []; Interact.escrowPda := []; Interact.capPda := [];
     Interact.portfolioPda := []; Interact.registryPda := [];
     Interact.slabStatePda := []; Interact.authorityPda := [] |}.

(** The value of a result, or [d] when it is an exception. *)
Definition value_or {A} (d : A) (r : Result A) : A :=
  match r with Ok a => a | Throw _ => d end.





Definition sample_healthy_request : Result Dashboard.Response * Trace :=
  Dashboard.api_status (W := sample_web3) (flaky_cluster 15)
    sample_host no_dashboard_env no_query [].



(** A library instance that takes a text for a key only when it has at
    least 32 characters. *)
Definition picky_web3 : Web3 :=
  {| hashv := fun input => input;
     is_on_curve := fun digest => Z.odd (byte_sum digest);
     pda_marker := Buffer_from (js "ProgramDerivedAddress");
     toBase58 := string_of_list_byte;
     fromBase58 := fun text =>
       if Nat.leb 32 (String.length text)
       then Some (list_byte_of_string text)
       else None |}.

(** A command line whose market is the text of a flag. *)
Definition sample_settings : list Setting :=
  [Value FlagMarket "--help"; Simulate true; Value FlagR "http://localhost:8899"].


Definition bad_router_opts : Interact.Opts := with_router empty_opts "router".

(** A cluster with every account executable, on which no blockhash can
    be fetched. *)
Definition no_blockhash_cluster : Cluster :=
  {| reply_getAccountInfo := fun _ _ _ => Ok (Some sample_account);
     reply_getVersion := fun _ _ => Ok "1.18.0";
     reply_getLatestBlockhash := fun _ _ => Throw (TransportError "blockhash unavailable");
     reply_simulateTransaction := fun _ _ _ _ => Ok sample_simulation |}.

(** An account that holds data and is not a program. *)
Definition sample_data_account : AccountInfo :=
  {| lamports := 890880;
     owner := sample_key "router";
     executable := false;
     data := Some [u8 7] |}.


Definition empty_body : Dashboard.StatusBody :=
  {| Dashboard.body_rpc_url := ""; Dashboard.body_rpc_version := "";
     Dashboard.body_payer := ""; Dashboard.body_user := ""; Dashboard.body_mint := "";
     Dashboard.body_presence := []; Dashboard.body_pdas := [];
     Dashboard.body_metas := [] |}.

(** The body of an answer 200. *)
Definition body_of (r : Result Dashboard.Response) : Dashboard.StatusBody :=
  match r with
  | Ok (Dashboard.Json200 body) => body
  | _ => empty_body
  end.

Definition sample_completed_run : Result unit * Trace :=
  Interact.main_body (W := sample_web3) empty_cluster sample_host no_opts no_env
    sample_config [].

(** * Properties *)

(** ** The bump search *)

Section BumpSearch.
Context {W : Web3}.

Lemma search_ok program seeds start address bump :
  search program seeds start = Ok (address, bump) <->
  (bump <= start)%nat /\
  address = candidate program seeds bump /\
  is_on_curve address = false /\
  (forall b, (bump < b <= start)%nat -> is_on_curve (candidate program seeds b) = true).
Proof.
  induction start as [|start IH]; simpl.
  - destruct (is_on_curve (candidate program seeds 0)) eqn:E.
    + split; [discriminate|].
      intros (Hle & -> & Hoff & _).
      assert (bump = 0%nat) by lia. subst. congruence.
    + split.
      * intros H; inversion H; subst. repeat split; auto. intros b Hb; lia.
      * intros (Hle & -> & _ & _). assert (bump = 0%nat) by lia. now subst.
  - destruct (is_on_curve (candidate program seeds (S start))) eqn:E.
    + rewrite IH. split.
      * intros (Hle & -> & Hoff & Hall). repeat split; auto.
        intros b Hb. destruct (Nat.eq_dec b (S start)) as [->|Hne]; auto.
        apply Hall; lia.
      * intros (Hle & -> & Hoff & Hall).
        assert (bump <> S start) by (intros ->; congruence).
        repeat split; auto; try lia. intros b Hb; apply Hall; lia.
    + split.
      * intros H; inversion H; subst. repeat split; auto. intros b Hb; lia.
      * intros (Hle & -> & Hoff & Hall).
        destruct (Nat.eq_dec bump (S start)) as [->|Hne]; auto.
        rewrite Hall in E by lia. discriminate.
Qed.



End BumpSearch.

(** ** Reasoning about scripts *)

Lemma bind_ok_inv {A B} (m : M A) (k : A -> M B) tr b tr' :
  bind m k tr = (Ok b, tr') ->
  exists a tr1, m tr = (Ok a, tr1) /\ k a tr1 = (Ok b, tr').
Proof.
  unfold bind. destruct (m tr) as [[a|e] tr1]; [eauto | discriminate].
Qed.

Lemma blind_ret {A} (a : A) : blind (ret a).
Proof. exists (Ok a), []. intros tr. unfold ret. now rewrite app_nil_r. Qed.

Lemma blind_throw {A} e : blind (@throw A e).
Proof. exists (Throw e), []. intros tr. unfold throw. now rewrite app_nil_r. Qed.

Lemma blind_lift {A} (r : Result A) : blind (lift r).
Proof. exists r, []. intros tr. unfold lift. now rewrite app_nil_r. Qed.

Lemma blind_emit e : blind (emit e).
Proof. exists (Ok tt), [e]. reflexivity. Qed.

Lemma blind_bind {A B} (m : M A) (k : A -> M B) :
  blind m -> (forall a, blind (k a)) -> blind (bind m k).
Proof.
  intros (r & evs & Hm) Hk. destruct r as [a|e].
  - destruct (Hk a) as (r' & evs' & Hka).
    exists r', (evs ++ evs'). intros tr.
    unfold bind. rewrite Hm, Hka. now rewrite app_assoc.
  - exists (Throw e), evs. intros tr. unfold bind. now rewrite Hm.
Qed.

Lemma blind_fst {A} (m : M A) tr1 tr2 : blind m -> fst (m tr1) = fst (m tr2).
Proof. intros (r & evs & H). now rewrite !H. Qed.

Create HintDb blind discriminated.
#[local] Hint Resolve blind_ret blind_throw blind_lift blind_emit : blind.

Ltac blind_step :=
  lazymatch goal with
  | |- blind (bind _ _) => apply blind_bind; [ | intros ]
  | |- blind (match ?x with _ => _ end) => destruct x
  | |- blind (console _) => apply blind_emit
  | |- _ => solve [auto with blind]
  end.

Section Determinism.
Context {W : Web3}.

Lemma blind_findProgramAddressSync seeds program :
  blind (findProgramAddressSync seeds program).
Proof. unfold findProgramAddressSync. repeat blind_step. Qed.

Lemma blind_new_PublicKey text : blind (new_PublicKey text).
Proof. unfold new_PublicKey. repeat blind_step. Qed.

Hint Resolve blind_findProgramAddressSync blind_new_PublicKey : blind.




End Determinism.

(** *** What a script adds to the trace *)


Lemma emits_ret {A} (a : A) P : emits (ret a) P.
Proof. intros tr. exists []. simpl. now rewrite app_nil_r. Qed.

Lemma emits_throw {A} e P : emits (@throw A e) P.
Proof. intros tr. exists []. simpl. now rewrite app_nil_r. Qed.

Lemma emits_lift {A} (r : Result A) P : emits (lift r) P.
Proof. intros tr. exists []. simpl. now rewrite app_nil_r. Qed.

Lemma emits_emit e (P : Event -> Prop) : P e -> emits (emit e) P.
Proof. intros H tr. exists [e]. simpl. auto. Qed.

Lemma emits_console o (P : Event -> Prop) : P (Console o) -> emits (console o) P.
Proof. apply emits_emit. Qed.

Lemma produces_bind {A B} (m : M A) (k : A -> M B) (Q1 Q2 Q : list Event -> Prop) :
  produces m Q1 ->
  (forall a, produces (k a) Q2) ->
  (forall e1, Q1 e1 -> Q e1) ->
  (forall e1 e2, Q1 e1 -> Q2 e2 -> Q (e1 ++ e2)) ->
  produces (bind m k) Q.
Proof.
  intros Hm Hk Hthrow Hseq tr. unfold bind.
  destruct (Hm tr) as (e1 & E1 & H1).
  destruct (m tr) as [[a|e] tr1]; simpl in E1; subst tr1.
  - destruct (Hk a (tr ++ e1)) as (e2 & E2 & H2).
    exists (e1 ++ e2). rewrite E2, app_assoc. auto.
  - exists e1. auto.
Qed.

Lemma emits_bind {A B} (m : M A) (k : A -> M B) P :
  emits m P -> (forall a, emits (k a) P) -> emits (bind m k) P.
Proof.
  intros Hm Hk. eapply produces_bind; eauto.
  intros e1 e2 H1 H2. apply Forall_app; auto.
Qed.

Lemma emits_try_catch {A} (m : M A) (h : Exn -> M A) P :
  emits m P -> (forall e, emits (h e) P) -> emits (try_catch m h) P.
Proof.
  intros Hm Hh tr. unfold try_catch.
  destruct (Hm tr) as (e1 & E1 & H1).
  destruct (m tr) as [[a|e] tr1]; simpl in E1; subst tr1.
  - exists e1. auto.
  - destruct (Hh e (tr ++ e1)) as (e2 & E2 & H2).
    exists (e1 ++ e2). rewrite E2, app_assoc. split; auto. apply Forall_app; auto.
Qed.

Lemma emits_for_of {A} (xs : list A) (body : A -> M unit) P :
  (forall x, emits (body x) P) -> emits (for_of xs body) P.
Proof.
  intros Hb. induction xs as [|x xs IH]; simpl.
  - apply emits_ret.
  - apply emits_bind; auto.
Qed.

Lemma emits_for_push {A B} (xs : list A) (body : A -> M B) P :
  (forall x, emits (body x) P) -> emits (for_push xs body) P.
Proof.
  intros Hb. induction xs as [|x xs IH]; simpl.
  - apply emits_ret.
  - apply emits_bind; auto. intros b. apply emits_bind; auto.
    intros bs. apply emits_ret.
Qed.

Lemma start_all_emits {A} (tasks : list (M A)) P :
  Forall (fun t => emits t P) tasks ->
  forall tr, exists evs, snd (start_all tasks tr) = tr ++ evs /\ Forall P evs.
Proof.
  induction 1 as [|t tasks Ht _ IH]; intros tr; simpl.
  - exists []. now rewrite app_nil_r.
  - destruct (Ht tr) as (e1 & E1 & H1).
    destruct (t tr) as [r tr1]; simpl in E1; subst tr1.
    destruct (IH (tr ++ e1)) as (e2 & E2 & H2).
    destruct (start_all tasks (tr ++ e1)) as [rs tr2]; simpl in *; subst tr2.
    exists (e1 ++ e2). rewrite app_assoc. split; auto. apply Forall_app; auto.
Qed.

Lemma emits_Promise_all {A} (tasks : list (M A)) P :
  Forall (fun t => emits t P) tasks -> emits (Promise_all tasks) P.
Proof.
  intros H tr. unfold Promise_all.
  destruct (start_all_emits tasks P H tr) as (evs & E & HE).
  destruct (start_all tasks tr) as [rs tr']; simpl in *. eauto.
Qed.

Lemma emits_Promise_all4 {A} (t1 t2 t3 t4 : M A) P :
  emits t1 P -> emits t2 P -> emits t3 P -> emits t4 P ->
  emits (Promise_all4 t1 t2 t3 t4) P.
Proof.
  intros H1 H2 H3 H4 tr. unfold Promise_all4.
  destruct (H1 tr) as (e1 & E1 & F1). destruct (t1 tr) as [r1 tr1]; simpl in E1; subst.
  destruct (H2 (tr ++ e1)) as (e2 & E2 & F2).
  destruct (t2 (tr ++ e1)) as [r2 tr2]; simpl in E2; subst.
  destruct (H3 ((tr ++ e1) ++ e2)) as (e3 & E3 & F3).
  destruct (t3 ((tr ++ e1) ++ e2)) as [r3 tr3]; simpl in E3; subst.
  destruct (H4 (((tr ++ e1) ++ e2) ++ e3)) as (e4 & E4 & F4).
  destruct (t4 (((tr ++ e1) ++ e2) ++ e3)) as [r4 tr4]; simpl in E4; subst.
  exists (e1 ++ e2 ++ e3 ++ e4). simpl. rewrite !app_assoc. split; auto.
  repeat (apply Forall_app; split); auto.
Qed.

Section Calls.
Context {W : Web3} (cluster : Cluster).

Lemma emits_getAccountInfo c pk (P : Event -> Prop) :
  P (Rpc c (GetAccountInfo pk)) -> emits (getAccountInfo cluster c pk) P.
Proof. intros H tr. exists [Rpc c (GetAccountInfo pk)]. simpl. auto. Qed.

Lemma emits_getVersion c (P : Event -> Prop) :
  P (Rpc c GetVersion) -> emits (getVersion cluster c) P.
Proof. intros H tr. exists [Rpc c GetVersion]. simpl. auto. Qed.

Lemma emits_getLatestBlockhash c (P : Event -> Prop) :
  P (Rpc c GetLatestBlockhash) -> emits (getLatestBlockhash cluster c) P.
Proof. intros H tr. exists [Rpc c GetLatestBlockhash]. simpl. auto. Qed.

Lemma emits_simulateTransaction c tx signers (P : Event -> Prop) :
  P (Rpc c (SimulateTransaction tx signers)) ->
  emits (simulateTransaction cluster c tx signers) P.
Proof. intros H tr. exists [Rpc c (SimulateTransaction tx signers)]. simpl. auto. Qed.

Lemma emits_findProgramAddressSync seeds program (P : Event -> Prop) :
  P (FindProgramAddress seeds program) -> emits (findProgramAddressSync seeds program) P.
Proof.
  intros H. unfold findProgramAddressSync.
  apply emits_bind; [apply emits_emit; auto | intros; apply emits_lift].
Qed.

Lemma emits_new_PublicKey text P : emits (new_PublicKey text) P.
Proof.
  unfold new_PublicKey. destruct (fromBase58 text); [apply emits_ret | apply emits_throw].
Qed.

End Calls.

(** One step of a footprint proof: split the script at its outermost
    construct; the leaves ask for the predicate at one concrete event. *)
Ltac emits_step :=
  lazymatch goal with
  | |- emits (bind _ _) _ => apply emits_bind; [ | intros ]
  | |- emits (try_catch _ _) _ => apply emits_try_catch; [ | intros ]
  | |- emits (for_of _ _) _ => apply emits_for_of; intros
  | |- emits (for_push _ _) _ => apply emits_for_push; intros
  | |- emits (Promise_all4 _ _ _ _) _ => apply emits_Promise_all4
  | |- emits (Promise_all _) _ => apply emits_Promise_all; repeat constructor
  | |- emits (ret _) _ => apply emits_ret
  | |- emits (throw _) _ => apply emits_throw
  | |- emits (lift _) _ => apply emits_lift
  | |- emits (console _) _ => apply emits_console
  | |- emits (emit _) _ => apply emits_emit
  | |- emits (getAccountInfo _ _ _) _ => apply emits_getAccountInfo
  | |- emits (getVersion _ _) _ => apply emits_getVersion
  | |- emits (getLatestBlockhash _ _) _ => apply emits_getLatestBlockhash
  | |- emits (simulateTransaction _ _ _ _) _ => apply emits_simulateTransaction
  | |- emits (findProgramAddressSync _ _) _ => apply emits_findProgramAddressSync
  | |- emits (new_PublicKey _) _ => apply emits_new_PublicKey
  | |- emits (match ?x with _ => _ end) _ => destruct x
  | |- emits (if ?b then _ else _) _ => destruct b
  end.

(** ** The dry-run transaction *)

Section DryRun.
Context {W : Web3} (cluster : Cluster).




End DryRun.

(** ** Probing one address *)

Section Probe.
Context {W : Web3} (cluster : Cluster).


End Probe.

(** ** The USER and MINT roots *)

Section Roots.
Context {W : Web3}.

(** C9.  In the CLI, a user root given neither as a flag nor in the
    environment is the public key of the loaded identity; a mint root
    given in neither place is the user root, hence the loaded identity
    too when the user root is absent as well.  The dashboard takes no
    user or mint root: both are the loaded identity. *)
Theorem absent_user_and_mint_default_to_identity
  (opts : Interact.Opts) (env : Interact.Env) (identity : Keypair) (tr : Trace) :
  (truthy (Interact.user opts) = None -> truthy (Interact.env_USER env) = None ->
   Interact.default_USER opts env identity tr = (Ok (publicKey identity), tr)) /\
  (truthy (Interact.mint opts) = None -> truthy (Interact.env_MINT env) = None ->
   forall USER, Interact.default_MINT opts env USER tr = (Ok USER, tr)) /\
  (truthy (Interact.user opts) = None -> truthy (Interact.env_USER env) = None ->
   truthy (Interact.mint opts) = None -> truthy (Interact.env_MINT env) = None ->
   bind (Interact.default_USER opts env identity) (Interact.default_MINT opts env) tr =
   (Ok (publicKey identity), tr)) /\
  (forall cluster host denv rpc_ routerPk_ slabPk_ market body tr',
     fst (Dashboard.tryLoadPayer host denv tr) = Ok identity ->
     Dashboard.status_body cluster host denv rpc_ routerPk_ slabPk_ market tr = (Ok body, tr') ->
     Dashboard.body_user body = toBase58 (publicKey identity) /\
     Dashboard.body_mint body = toBase58 (publicKey identity)).
Proof.
  split; [|split; [|split]].
  - intros Hu He. unfold Interact.default_USER. now rewrite Hu, He.
  - intros Hm He USER. unfold Interact.default_MINT. now rewrite Hm, He.
  - intros Hu He Hm He'. unfold bind, Interact.default_USER, Interact.default_MINT.
    now rewrite Hu, He, Hm, He'.
  - intros cluster host denv rpc_ routerPk_ slabPk_ market body tr' Hid Hrun.
    unfold Dashboard.status_body in Hrun.
    apply bind_ok_inv in Hrun. destruct Hrun as (version & tr1 & _ & Hrun).
    apply bind_ok_inv in Hrun. destruct Hrun as (payer & tr2 & Hpayer & Hrun).
    assert (payer = identity) as ->.
    { assert (Hb : blind (Dashboard.tryLoadPayer host denv)).
      { unfold Dashboard.tryLoadPayer. repeat blind_step. }
      pose proof (blind_fst _ tr tr1 Hb) as E. rewrite Hid, Hpayer in E.
      simpl in E. now inversion E. }
    apply bind_ok_inv in Hrun. destruct Hrun as (pres & tr3 & _ & Hrun).
    apply bind_ok_inv in Hrun. destruct Hrun as (p & tr4 & _ & Hrun).
    apply bind_ok_inv in Hrun. destruct Hrun as (metas & tr5 & _ & Hrun).
    unfold ret in Hrun. inversion Hrun. simpl. auto.
Qed.

End Roots.

(** ** The reference topology *)

Section Inversion.
Context {W : Web3}.

Lemma findProgramAddressSync_ok_inv seeds program tr r tr' :
  findProgramAddressSync seeds program tr = (Ok r, tr') ->
  derive program seeds = Ok r /\ tr' = tr ++ [FindProgramAddress seeds program].
Proof.
  unfold findProgramAddressSync, bind, emit, lift. intros H. inversion H. auto.
Qed.

Lemma new_PublicKey_ok_inv text tr k tr' :
  new_PublicKey text tr = (Ok k, tr') -> fromBase58 text = Some k /\ tr' = tr.
Proof.
  unfold new_PublicKey.
  destruct (fromBase58 text); unfold ret, throw; intros H; inversion H; auto.
Qed.

End Inversion.

Lemma lift_ok_inv {A} (r : Result A) tr a tr' :
  lift r tr = (Ok a, tr') -> r = Ok a /\ tr' = tr.
Proof. unfold lift. intros H; inversion H; auto. Qed.

Lemma console_ok_inv o tr u tr' : console o tr = (Ok u, tr') -> tr' = tr ++ [Console o].
Proof. unfold console, emit. intros H; inversion H; auto. Qed.

Lemma ret_ok_inv {A} (a : A) tr b tr' : ret a tr = (Ok b, tr') -> b = a /\ tr' = tr.
Proof. unfold ret. intros H; inversion H; auto. Qed.

(** Peel one statement off a successful run. *)
Ltac run_step H :=
  lazymatch type of H with
  | bind _ _ _ = (Ok _, _) =>
      let a := fresh "v" in
      let t := fresh "tr" in
      let H1 := fresh "Hrun" in
      apply bind_ok_inv in H; destruct H as (a & t & H1 & H);
      first [ apply console_ok_inv in H1; subst t; clear a
            | apply findProgramAddressSync_ok_inv in H1; destruct H1 as [H1 ?]; subst t;
              destruct a as [? ?]
            | apply new_PublicKey_ok_inv in H1; destruct H1 as [H1 ?]; subst t
            | apply lift_ok_inv in H1; destruct H1 as [H1 ?]; subst t
            | idtac ]
  | ret _ _ = (Ok _, _) => apply ret_ok_inv in H; destruct H as [? ?]
  end.

Lemma u64LE_one : u64LE 1 = Ok (u64_le 1).
Proof. reflexivity. Qed.

Section Topology.
Context {W : Web3}.

(** What a successful [deriveAllPDAs] has done. *)
Lemma deriveAllPDAs_ok_inv texts tr pd trd :
  Dashboard.deriveAllPDAs texts tr = (Ok pd, trd) ->
  exists (ids : ProgramIds) (user_ mint_ : PublicKey) (address : Node -> PublicKey),
    let roots := {| root_user := user_; root_mint := mint_;
                    root_market := Dashboard.market_ texts; root_nonce := 1 |} in
    fromBase58 (Dashboard.routerPk texts) = Some (router_id ids) /\
    fromBase58 (Dashboard.slabPk texts) = Some (slab_id ids) /\
    fromBase58 (Dashboard.userPk texts) = Some user_ /\
    fromBase58 (Dashboard.mintPk texts) = Some mint_ /\
    (forall n, exists bump,
       derive (node_program ids n) (node_seeds roots (address slab_state) n)
       = Ok (address n, bump)) /\
    trd = tr ++ map (node_derivation ids roots (address slab_state)) evaluation_order /\
    (forall n, dashboard_pda pd n = toBase58 (address n)).
Proof.
  intros H. unfold Dashboard.deriveAllPDAs in H. repeat run_step H.
  rewrite u64LE_one in *.
  repeat match goal with
         | H : Ok _ = Ok _ |- _ => inversion H; clear H
         end.
  subst. unfold toBuffer in *.
  match goal with
  | H1 : fromBase58 (Dashboard.routerPk _) = Some ?r,
    H2 : fromBase58 (Dashboard.slabPk _) = Some ?s,
    H3 : fromBase58 (Dashboard.userPk _) = Some ?u,
    H4 : fromBase58 (Dashboard.mintPk _) = Some ?m,
    D1 : derive _ [Buffer_from (js "vault"); _] = Ok (?a1, _),
    D2 : derive _ [Buffer_from (js "slab"); _] = Ok (?a2, _),
    D3 : derive _ [Buffer_from (js "escrow"); _; _; _] = Ok (?a3, _),
    D4 : derive _ [Buffer_from (js "cap"); _; _; _; _] = Ok (?a4, _),
    D5 : derive _ [Buffer_from (js "portfolio"); _] = Ok (?a5, _),
    D6 : derive _ [Buffer_from (js "registry")] = Ok (?a6, _),
    D7 : derive _ [Buffer_from (js "authority"); _] = Ok (?a7, _) |- _ =>
      exists {| router_id := r; slab_id := s |}, u, m,
        (fun n => match n with
                  | vault => a1 | slab_state => a2 | escrow => a3 | cap => a4
                  | portfolio => a5 | registry => a6 | authority => a7
                  end)
  end.
  cbv zeta. repeat (split; [assumption|]).
  split; [|split].
  - intros node; destruct node; simpl; eauto.
  - unfold node_derivation, evaluation_order. simpl map.
    repeat rewrite <- app_assoc. reflexivity.
  - intros node; destruct node; reflexivity.
Qed.

(** What a successful derivation block of the CLI has done. *)
Lemma derivePDAs_ok_inv cfg user_ mint_ tr pc trc :
  Interact.derivePDAs cfg user_ mint_ tr = (Ok pc, trc) ->
  let ids := {| router_id := Interact.ROUTER_ID cfg; slab_id := Interact.SLAB_ID cfg |} in
  let roots := {| root_user := user_; root_mint := mint_;
                  root_market := Interact.MARKET cfg; root_nonce := 1 |} in
  (forall n, exists bump,
     derive (node_program ids n) (node_seeds roots (Interact.slabStatePda pc) n)
     = Ok (interact_pda pc n, bump)) /\
  exists evs, trc = tr ++ evs /\
    filter is_derivation evs =
    map (node_derivation ids roots (Interact.slabStatePda pc)) evaluation_order.
Proof.
  intros H. unfold Interact.derivePDAs in H. repeat run_step H.
  rewrite u64LE_one in *.
  repeat match goal with
         | H : Ok _ = Ok _ |- _ => inversion H; clear H
         end.
  subst. unfold toBuffer in *. cbv zeta. simpl Interact.slabStatePda.
  split.
  - intros node; destruct node; simpl; eauto.
  - eexists. split; [repeat rewrite <- app_assoc; reflexivity|]. reflexivity.
Qed.

Lemma derive_functional program seeds a1 b1 a2 b2 :
  derive program seeds = Ok (a1, b1) -> derive program seeds = Ok (a2, b2) ->
  a1 = a2 /\ b1 = b2.
Proof. intros H1 H2. rewrite H1 in H2. inversion H2. auto. Qed.

(** C3, for the nonce at its constant value 1 (the scripts take no nonce
    root).  With the nonce fixed at 1, a successful topology derivation performs exactly
    the seven derivations of the reference schema, each with the schema's
    seeds in the schema's order and under the schema's program, and
    returns their addresses: vault, then slab-state, then escrow, cap,
    portfolio, registry, authority.  Escrow, cap and authority are derived
    after slab-state, whose address they take as a seed. *)
Theorem topology_is_reference_schema_at_nonce_one
  (ids : ProgramIds) (roots : RootSet)
  (texts : Dashboard.Roots) (cfg : Interact.Config)
  (tr : Trace) (pd : Dashboard.PDAs) (trd : Trace) (pc : Interact.PDAs) (trc : Trace)
  (Hnonce : root_nonce roots = 1)
  (Hrouter : fromBase58 (Dashboard.routerPk texts) = Some (router_id ids))
  (Hslab : fromBase58 (Dashboard.slabPk texts) = Some (slab_id ids))
  (Huser : fromBase58 (Dashboard.userPk texts) = Some (root_user roots))
  (Hmint : fromBase58 (Dashboard.mintPk texts) = Some (root_mint roots))
  (Hmarket : Dashboard.market_ texts = root_market roots)
  (Hcfg_router : Interact.ROUTER_ID cfg = router_id ids)
  (Hcfg_slab : Interact.SLAB_ID cfg = slab_id ids)
  (Hcfg_market : Interact.MARKET cfg = root_market roots)
  (Hdashboard : Dashboard.deriveAllPDAs texts tr = (Ok pd, trd))
  (Hcli : Interact.derivePDAs cfg (root_user roots) (root_mint roots) tr = (Ok pc, trc)) :
  let slabState := Interact.slabStatePda pc in
  trd = tr ++ map (node_derivation ids roots slabState) evaluation_order /\
  (exists evs, trc = tr ++ evs /\
     filter is_derivation evs = map (node_derivation ids roots slabState) evaluation_order) /\
  (forall n, exists bump,
     derive (node_program ids n) (node_seeds roots slabState n) = Ok (interact_pda pc n, bump)) /\
  (forall n, dashboard_pda pd n = toBase58 (interact_pda pc n)) /\
  (exists before after,
     evaluation_order = before ++ slab_state :: after /\
     forall n, depends_on_slab_state n = true -> In n after).
Proof.
  destruct ids as [router_ slab_]. destruct roots as [user_ mint_ market nonce].
  simpl in *. subst nonce.
  apply deriveAllPDAs_ok_inv in Hdashboard.
  destruct Hdashboard as (ids' & u' & m' & address & Hr & Hs & Hu & Hm & Hd & Htr & Hpd).
  cbv zeta in Hd, Htr.
  rewrite Hrouter in Hr. rewrite Hslab in Hs. rewrite Huser in Hu. rewrite Hmint in Hm.
  inversion Hu; inversion Hm. subst u' m'. destruct ids' as [r' s']. simpl in Hr, Hs.
  inversion Hr; inversion Hs. subst r' s'. rewrite Hmarket in *.
  apply derivePDAs_ok_inv in Hcli. cbv zeta in Hcli. destruct Hcli as (Hc & evs & Htrc & Hevs).
  rewrite Hcfg_router, Hcfg_slab, Hcfg_market in *.
  cbv zeta.
  assert (Hss : address slab_state = Interact.slabStatePda pc).
  { destruct (Hd slab_state) as (b1 & H1). destruct (Hc slab_state) as (b2 & H2).
    simpl in H1, H2. apply (derive_functional _ _ _ _ _ _ H1 H2). }
  rewrite Hss in *.
  assert (Haddr : forall n, address n = interact_pda pc n).
  { intros n. destruct (Hd n) as (b1 & H1). destruct (Hc n) as (b2 & H2).
    apply (derive_functional _ _ _ _ _ _ H1 H2). }
  split; [exact Htr|]. split; [eauto|]. split; [exact Hc|].
  split; [intros n; rewrite Hpd, Haddr; reflexivity|].
  exists [vault], [escrow; cap; portfolio; registry; authority].
  split; [reflexivity|].
  intros n; destruct n; simpl; intros; try discriminate; tauto.
Qed.

End Topology.

(** C3, the witness: the sample roots with nonce 1. *)
Lemma topology_is_reference_schema_at_nonce_one_witness :
  let pd := value_or no_dashboard_pdas (fst sample_dashboard_run) in
  let pc := value_or no_cli_pdas (fst sample_cli_run) in
  let slabState := Interact.slabStatePda pc in
  snd sample_dashboard_run =
    [] ++ map (node_derivation sample_ids (sample_roots 1) slabState) evaluation_order /\
  (exists evs, snd sample_cli_run = [] ++ evs /\
     filter is_derivation evs =
     map (node_derivation sample_ids (sample_roots 1) slabState) evaluation_order) /\
  (forall n, exists bump,
     derive (W := sample_web3) (node_program sample_ids n)
       (node_seeds (sample_roots 1) slabState n) = Ok (interact_pda pc n, bump)) /\
  (forall n, dashboard_pda pd n = toBase58 (Web3 := sample_web3) (interact_pda pc n)) /\
  (exists before after,
     evaluation_order = before ++ slab_state :: after /\
     forall n, depends_on_slab_state n = true -> In n after).
Proof.
  apply (topology_is_reference_schema_at_nonce_one (W := sample_web3)
           sample_ids (sample_roots 1) sample_root_texts sample_config []);
    vm_compute; reflexivity.
Defined.

(** C3 does not hold for a nonce root: the scripts take none.  For roots whose
    nonce is 2 the derivation still succeeds, but the cap derivation the
    claim describes (nonce 2 as the last seed) is not performed; the one
    with nonce 1 is. *)
Lemma nonce_root_is_ignored_counterexample :
  fromBase58 (Web3 := sample_web3) (Dashboard.userPk sample_root_texts)
    = Some (root_user (sample_roots 2)) /\
  fromBase58 (Web3 := sample_web3) (Dashboard.mintPk sample_root_texts)
    = Some (root_mint (sample_roots 2)) /\
  Dashboard.market_ sample_root_texts = root_market (sample_roots 2) /\
  root_nonce (sample_roots 2) = 2 /\
  (exists pd, fst sample_dashboard_run = Ok pd /\
              Dashboard.slabStatePda pd = toBase58 (Web3 := sample_web3) sample_slab_state) /\
  ~ In (node_derivation sample_ids (sample_roots 2) sample_slab_state cap)
       (snd sample_dashboard_run) /\
  In (node_derivation sample_ids (sample_roots 1) sample_slab_state cap)
     (snd sample_dashboard_run).
Proof.
  repeat (split; [reflexivity|]).
  split; [eexists; split; vm_compute; reflexivity|].
  split.
  - vm_compute. intros H.
    repeat (destruct H as [H|H]; [discriminate H|]). exact H.
  - vm_compute. tauto.
Qed.


(** ** Distinct addresses *)

Lemma label_head (n : Node) :
  exists rest, Buffer_from (js (node_label n)) = node_initial n :: rest.
Proof. destruct n; vm_compute; eauto. Qed.

Lemma node_seeds_head roots slabState n :
  exists tail, node_seeds roots slabState n = Buffer_from (js (node_label n)) :: tail.
Proof. destruct n; simpl; eauto. Qed.

Lemma node_initial_inj n m : node_initial n = node_initial m -> n = m.
Proof. destruct n, m; simpl; intros H; try reflexivity; discriminate H. Qed.

Lemma NoDup_map_of_injective {A B} (f : A -> B) (l : list A) :
  (forall x y, f x = f y -> x = y) -> NoDup l -> NoDup (map f l).
Proof.
  intros Hf. induction 1 as [|x l Hx _ IH]; simpl; constructor; auto.
  intros Hin. apply in_map_iff in Hin. destruct Hin as (y & E & Hy).
  apply Hf in E. now subst.
Qed.

Section Distinct.
Context {W : Web3}.

Lemma topology_preimage_head ids roots slabState n bump :
  exists rest, topology_preimage ids roots slabState n bump = node_initial n :: rest.
Proof.
  unfold topology_preimage, hash_input.
  destruct (node_seeds_head roots slabState n) as (tail & ->).
  destruct (label_head n) as (rest & ->).
  simpl. eauto.
Qed.

Lemma topology_preimage_inj ids roots slabState n m b b' :
  topology_preimage ids roots slabState n b = topology_preimage ids roots slabState m b' ->
  n = m.
Proof.
  intros H.
  destruct (topology_preimage_head ids roots slabState n b) as (r1 & E1).
  destruct (topology_preimage_head ids roots slabState m b') as (r2 & E2).
  rewrite E1, E2 in H. inversion H. now apply node_initial_inj.
Qed.

(** C4.  For the roots [{user, mint, market = "BTC-PERP", nonce = 1}], a
    successful topology derivation returns seven addresses; when the hash
    has no collision among the candidates of this topology (and the text
    form of keys is one-to-one) they are pairwise different; and the
    escrow, cap and authority derivations all take as seed the very
    address that the slab-state derivation returned and that the topology
    lists as its slab-state entry. *)
Theorem reference_topology_has_seven_distinct_addresses
  (ids : ProgramIds) (user_ mint_ : PublicKey) (texts : Dashboard.Roots)
  (tr : Trace) (pd : Dashboard.PDAs) (trd : Trace)
  (Hrouter : fromBase58 (Dashboard.routerPk texts) = Some (router_id ids))
  (Hslab : fromBase58 (Dashboard.slabPk texts) = Some (slab_id ids))
  (Huser : fromBase58 (Dashboard.userPk texts) = Some user_)
  (Hmint : fromBase58 (Dashboard.mintPk texts) = Some mint_)
  (Hmarket : Dashboard.market_ texts = js "BTC-PERP")
  (Hrun : Dashboard.deriveAllPDAs texts tr = (Ok pd, trd))
  (Hbase58 : forall k1 k2, toBase58 k1 = toBase58 k2 -> k1 = k2)
  (Hhash : forall slabState,
      Dashboard.slabStatePda pd = toBase58 slabState ->
      collision_free_on_topology ids
        {| root_user := user_; root_mint := mint_;
           root_market := js "BTC-PERP"; root_nonce := 1 |} slabState) :
  List.length (Dashboard.pdaRows pd) = 7%nat /\
  NoDup (map snd (Dashboard.pdaRows pd)) /\
  exists slabState bump,
    derive (slab_id ids) [Buffer_from (js "slab"); Buffer_from (js "BTC-PERP")]
    = Ok (slabState, bump) /\
    Dashboard.slabStatePda pd = toBase58 slabState /\
    In (FindProgramAddress [Buffer_from (js "escrow"); user_; slabState; mint_]
          (router_id ids)) trd /\
    In (FindProgramAddress [Buffer_from (js "cap"); user_; slabState; mint_; u64_le 1]
          (router_id ids)) trd /\
    In (FindProgramAddress [Buffer_from (js "authority"); slabState] (slab_id ids)) trd.
Proof.
  apply deriveAllPDAs_ok_inv in Hrun.
  destruct Hrun as (ids' & u' & m' & address & Hr & Hs & Hu & Hm & Hd & Htr & Hpd).
  cbv zeta in Hd, Htr.
  rewrite Hrouter in Hr. rewrite Hslab in Hs. rewrite Huser in Hu. rewrite Hmint in Hm.
  inversion Hu; inversion Hm. subst u' m'. destruct ids' as [r' s']. simpl in Hr, Hs.
  inversion Hr; inversion Hs. subst r' s'. rewrite Hmarket in *.
  destruct ids as [router_ slab_]. simpl in *.
  set (ids := {| router_id := router_; slab_id := slab_ |}) in *.
  set (roots := {| root_user := user_; root_mint := mint_;
                   root_market := js "BTC-PERP"; root_nonce := 1 |}) in *.
  assert (Hss : Dashboard.slabStatePda pd = toBase58 (address slab_state))
    by apply (Hpd slab_state).
  specialize (Hhash _ Hss).
  assert (Hinj : forall n m, dashboard_pda pd n = dashboard_pda pd m -> n = m).
  { intros n m E. rewrite !Hpd in E. apply Hbase58 in E.
    destruct (Hd n) as (bn & Hn). destruct (Hd m) as (bm & Hm').
    apply search_ok in Hn. apply search_ok in Hm'.
    destruct Hn as (Hbn & En & _). destruct Hm' as (Hbm & Em & _).
    rewrite En, Em in E. unfold candidate in E.
    apply (Hhash n m bn bm Hbn Hbm) in E.
    now apply topology_preimage_inj in E. }
  split; [reflexivity|]. split.
  - change (NoDup (map (dashboard_pda pd)
                     [vault; escrow; cap; portfolio; registry; slab_state; authority])).
    apply NoDup_map_of_injective; [exact Hinj|].
    repeat constructor; simpl; intuition discriminate.
  - destruct (Hd slab_state) as (bump & Hslab_state).
    exists (address slab_state), bump.
    split; [exact Hslab_state|]. split; [exact Hss|].
    rewrite Htr. unfold evaluation_order, node_derivation. simpl map.
    repeat split; apply in_or_app; right; simpl; tauto.
Qed.

End Distinct.

Lemma sample_toBase58_inj (k1 k2 : PublicKey) :
  toBase58 (Web3 := sample_web3) k1 = toBase58 (Web3 := sample_web3) k2 -> k1 = k2.
Proof.
  simpl. intros H.
  rewrite <- (list_byte_of_string_of_list_byte k1), <- (list_byte_of_string_of_list_byte k2).
  now rewrite H.
Qed.

(** C4, the witness: the sample roots under the sample library, whose
    hash is the identity. *)
Lemma reference_topology_has_seven_distinct_addresses_witness :
  let pd := value_or no_dashboard_pdas (fst sample_dashboard_run) in
  List.length (Dashboard.pdaRows pd) = 7%nat /\
  NoDup (map snd (Dashboard.pdaRows pd)) /\
  exists slabState bump,
    derive (W := sample_web3) (slab_id sample_ids)
      [Buffer_from (js "slab"); Buffer_from (js "BTC-PERP")] = Ok (slabState, bump) /\
    Dashboard.slabStatePda pd = toBase58 (Web3 := sample_web3) slabState /\
    In (FindProgramAddress
          [Buffer_from (js "escrow"); sample_key "user"; slabState; sample_key "mint"]
          (router_id sample_ids)) (snd sample_dashboard_run) /\
    In (FindProgramAddress
          [Buffer_from (js "cap"); sample_key "user"; slabState; sample_key "mint"; u64_le 1]
          (router_id sample_ids)) (snd sample_dashboard_run) /\
    In (FindProgramAddress [Buffer_from (js "authority"); slabState] (slab_id sample_ids))
       (snd sample_dashboard_run).
Proof.
  apply (reference_topology_has_seven_distinct_addresses (W := sample_web3)
           sample_ids (sample_key "user") (sample_key "mint") sample_root_texts []).
  - reflexivity.
  - reflexivity.
  - reflexivity.
  - reflexivity.
  - reflexivity.
  - vm_compute; reflexivity.
  - exact sample_toBase58_inj.
  - intros slabState _ n m b b' _ _ H. exact H.
Defined.

(** ** The market seed *)


Section MarketSeed.
Context {W : Web3}.


End MarketSeed.


(** ** Failed reads *)

Section Reads.
Context {W : Web3} (cluster : Cluster).












End Reads.




Section PartialFailure.
Context {W : Web3} (cluster : Cluster).




Lemma api_status_run host denv query tr :
  Dashboard.api_status cluster host denv query tr =
  match Dashboard.status_body cluster host denv
          (or_else (Dashboard.rpc query) (Dashboard.DEFAULT_RPC denv))
          (or_else (Dashboard.router query) Dashboard.DEFAULT_ROUTER)
          (or_else (Dashboard.slab query) Dashboard.DEFAULT_SLAB)
          (or_else_js (Dashboard.market query) Dashboard.DEFAULT_MARKET) tr with
  | (Ok body, tr') => (Ok (Dashboard.Json200 body), tr')
  | (Throw e, tr') => (Ok (Dashboard.Json500 (error_text e)), tr')
  end.
Proof.
  unfold Dashboard.api_status, try_catch, bind, ret.
  destruct (Dashboard.status_body _ _ _ _ _ _ _ tr) as [[body|e] tr']; reflexivity.
Qed.



End PartialFailure.

(** ** The dry-run gate *)




(** Evaluate the gate's test once the presence is known. *)
Ltac decide_gate :=
  repeat match goal with
         | |- context [is_executable_program ?p] =>
             let b := eval vm_compute in (is_executable_program p) in
             change (is_executable_program p) with b
         end;
  cbv iota.

Section GateProofs.
Context {W : Web3} (cluster : Cluster).





End GateProofs.

Section GateTheorem.
Context {W : Web3} (cluster : Cluster).


End GateTheorem.

Section DeterminismTheorem.
Context {W : Web3}.




End DeterminismTheorem.

(** ** The theorems at the sample instances *)








(** C9, an instance: no flag and no environment variable. *)
Lemma absent_user_and_mint_default_to_identity_witness :
  bind (Interact.default_USER (W := sample_web3) no_opts no_env sample_keypair)
       (Interact.default_MINT (W := sample_web3) no_opts no_env) []
  = (Ok (publicKey sample_keypair), []).
Proof.
  apply (absent_user_and_mint_default_to_identity (W := sample_web3)
           no_opts no_env sample_keypair []);
    reflexivity.
Defined.

(** * Further properties of the scripts *)

(** ** The command line *)

Lemma parse_rendered settings :
  Forall has_value settings -> forall opts rest,
  parse_argv (flat_map render settings ++ rest) opts
  = parse_argv rest (fold_left apply_setting settings opts).
Proof.
  induction 1 as [|s settings Hs _ IH]; intros opts rest; [reflexivity|].
  destruct s as [short|f v].
  - destruct short; simpl; apply IH.
  - simpl in Hs. apply String.eqb_neq in Hs.
    destruct f; simpl; rewrite Hs; apply IH.
Qed.

(** X1.  A command line that spells out a list of settings, each value
    non-empty, parses to exactly these settings applied in order: a later
    setting of an option replaces an earlier one, and a value is taken as
    it stands even when it reads like a flag. *)
Theorem well_formed_command_line_parses_to_its_settings
  (settings : list Setting) (opts : Interact.Opts)
  (Hvalues : Forall has_value settings) :
  parse_argv (flat_map render settings) opts
  = Options (fold_left apply_setting settings opts).
Proof.
  rewrite <- (app_nil_r (flat_map render settings)).
  now rewrite parse_rendered.
Qed.

(** X1, an instance: the market is the text "--help", and help is not
    shown. *)
Lemma well_formed_command_line_parses_to_its_settings_witness :
  parse_argv ["--market"; "--help"; "-s"; "-r"; "http://localhost:8899"] empty_opts
  = Options (with_rpc (with_simulate (with_market_opt empty_opts "--help"))
               "http://localhost:8899").
Proof.
  apply (well_formed_command_line_parses_to_its_settings sample_settings empty_opts).
  repeat constructor; simpl; discriminate.
Defined.

(** X2.  [--help] or [-h] after any well-formed settings ends the script
    at once: the usage is printed, the exit code is 0, and nothing else
    happens (no key file is read, no call is made), whatever follows on
    the command line. *)
Theorem help_prints_usage_and_exits
  {W : Web3} (cluster : Cluster) (host : Host) (env : Interact.Env)
  (settings : list Setting) (help : string) (rest : list string) (tr : Trace)
  (Hvalues : Forall has_value settings)
  (Hhelp : help = "--help" \/ help = "-h") :
  parse_argv (flat_map render settings ++ help :: rest) empty_opts = Help /\
  script cluster host env (flat_map render settings ++ help :: rest) tr
  = (Ok tt, tr ++ [Console (OutText usage_text); Console (OutExit 0)]).
Proof.
  assert (H : parse_argv (flat_map render settings ++ help :: rest) empty_opts = Help).
  { rewrite parse_rendered by assumption. destruct Hhelp as [-> | ->]; reflexivity. }
  split; [exact H|].
  unfold script. rewrite H. unfold printUsage, bind, console, emit.
  now rewrite <- app_assoc.
Qed.

(** X2, an instance. *)
Lemma help_prints_usage_and_exits_witness :
  script (W := sample_web3) empty_cluster sample_host no_env
    (flat_map render sample_settings ++ ["-h"; "--rpc"]) []
  = (Ok tt, [Console (OutText usage_text); Console (OutExit 0)]).
Proof.
  apply (help_prints_usage_and_exits (W := sample_web3) empty_cluster sample_host no_env
           sample_settings "-h" ["--rpc"] []).
  - repeat constructor; simpl; discriminate.
  - right; reflexivity.
Defined.

Section Frame.
Context {T : Type} (proj : Interact.Opts -> T) (flags : list string).
Hypothesis Hsim :
  (In "--simulate" flags /\ In "-s" flags) \/ forall o, proj (with_simulate o) = proj o.
Hypothesis Hrpc :
  (In "--rpc" flags /\ In "-r" flags) \/ forall o v, proj (with_rpc o v) = proj o.
Hypothesis Hrouter : In "--router" flags \/ forall o v, proj (with_router o v) = proj o.
Hypothesis Hslab : In "--slab" flags \/ forall o v, proj (with_slab o v) = proj o.
Hypothesis Hmarket : In "--market" flags \/ forall o v, proj (with_market_opt o v) = proj o.
Hypothesis Huser : In "--user" flags \/ forall o v, proj (with_user o v) = proj o.
Hypothesis Hmint : In "--mint" flags \/ forall o v, proj (with_mint o v) = proj o.
Hypothesis Hpayer : In "--payer" flags \/ forall o v, proj (with_payer o v) = proj o.

Ltac skip_tail Hnot :=
  intros f Hf Hin; apply (Hnot f Hf); simpl; auto.

Ltac flag_case IH H Hnot Hflag :=
  apply IH in H; [ | simpl in *; lia | skip_tail Hnot ];
  rewrite H;
  let Hin := fresh in
  let Hp := fresh in
  destruct Hflag as [Hin|Hp];
  [ exfalso; first [ apply (Hnot _ (proj1 Hin)); left; reflexivity
                   | apply (Hnot _ (proj2 Hin)); left; reflexivity
                   | apply (Hnot _ Hin); left; reflexivity ]
  | apply Hp ].

(** A part of the options that only the flags of [flags] can change is
    left as it was by a command line without these flags. *)
Lemma parse_frame :
  forall n argv,
    (List.length argv <= n)%nat ->
    (forall f, In f flags -> ~ In f argv) ->
    forall o o', parse_argv argv o = Options o' -> proj o' = proj o.
Proof.
  induction n as [|n IH]; intros argv Hlen Hnot o o' H.
  - destruct argv; [|simpl in Hlen; lia]. simpl in H. now inversion H.
  - destruct argv as [|a rest]; [simpl in H; now inversion H|].
    cbn [parse_argv] in H.
    destruct (String.eqb_spec a "--help"); [discriminate|].
    destruct (String.eqb_spec a "-h"); [discriminate|].
    cbn [orb] in H.
    destruct (String.eqb_spec a "--simulate") as [->|]; cbn [orb] in H;
      [flag_case IH H Hnot Hsim|].
    destruct (String.eqb_spec a "-s") as [->|]; cbn [orb] in H;
      [flag_case IH H Hnot Hsim|].
    destruct rest as [|next rest'].
    { cbn [parse_argv] in H. now inversion H. }
    destruct (String.eqb_spec next "").
    { apply IH in H; [exact H | simpl in *; lia | skip_tail Hnot]. }
    destruct (String.eqb_spec a "--rpc") as [->|]; cbn [orb] in H;
      [flag_case IH H Hnot Hrpc|].
    destruct (String.eqb_spec a "-r") as [->|]; cbn [orb] in H;
      [flag_case IH H Hnot Hrpc|].
    destruct (String.eqb_spec a "--router") as [->|]; [flag_case IH H Hnot Hrouter|].
    destruct (String.eqb_spec a "--slab") as [->|]; [flag_case IH H Hnot Hslab|].
    destruct (String.eqb_spec a "--market") as [->|]; [flag_case IH H Hnot Hmarket|].
    destruct (String.eqb_spec a "--user") as [->|]; [flag_case IH H Hnot Huser|].
    destruct (String.eqb_spec a "--mint") as [->|]; [flag_case IH H Hnot Hmint|].
    destruct (String.eqb_spec a "--payer") as [->|]; [flag_case IH H Hnot Hpayer|].
    apply IH in H; [exact H | simpl in *; lia | skip_tail Hnot].
Qed.

End Frame.

Ltac by_frame H flags :=
  intros;
  eapply (parse_frame _ flags) with (n := List.length _);
    [ .. | exact H ];
    try (right; reflexivity);
    try (left; simpl; tauto);
    try apply Nat.le_refl;
    try (intros f [<-|[<-|[]]]; assumption);
    try (intros f [<-|[]]; assumption).

(** X3.  Whatever the arguments are, an option is only changed by its own
    flag: when neither spelling of the flag occurs among the arguments,
    the option is what it was before parsing. *)
Theorem options_change_only_by_their_flags
  (argv : list string) (o o' : Interact.Opts)
  (Hparse : parse_argv argv o = Options o') :
  (~ In "--simulate" argv -> ~ In "-s" argv -> Interact.simulate o' = Interact.simulate o) /\
  (~ In "--rpc" argv -> ~ In "-r" argv -> Interact.rpc o' = Interact.rpc o) /\
  (~ In "--router" argv -> Interact.router o' = Interact.router o) /\
  (~ In "--slab" argv -> Interact.slab o' = Interact.slab o) /\
  (~ In "--market" argv -> Interact.market o' = Interact.market o) /\
  (~ In "--user" argv -> Interact.user o' = Interact.user o) /\
  (~ In "--mint" argv -> Interact.mint o' = Interact.mint o) /\
  (~ In "--payer" argv -> Interact.payer o' = Interact.payer o).
Proof.
  repeat split.
  - by_frame Hparse ["--simulate"; "-s"].
  - by_frame Hparse ["--rpc"; "-r"].
  - by_frame Hparse ["--router"].
  - by_frame Hparse ["--slab"].
  - by_frame Hparse ["--market"].
  - by_frame Hparse ["--user"].
  - by_frame Hparse ["--mint"].
  - by_frame Hparse ["--payer"].
Qed.

(** X3, an instance: a stray word and a flag without its value change
    nothing, and the slab option set beforehand is kept. *)
Lemma options_change_only_by_their_flags_witness :
  Interact.slab
    (with_market_opt (with_simulate (with_slab empty_opts "slab")) "ETH-PERP")
  = Interact.slab (with_slab empty_opts "slab").
Proof.
  apply (options_change_only_by_their_flags
           ["--simulate"; "stray"; "--market"; "ETH-PERP"; "--rpc"]
           (with_slab empty_opts "slab")
           (with_market_opt (with_simulate (with_slab empty_opts "slab")) "ETH-PERP")).
  - reflexivity.
  - simpl. intros H. repeat (destruct H as [H|H]; [discriminate H|]). exact H.
Defined.

(** ** [u64LE] *)

Lemma byte_to_Z_u8 z : byte_to_Z (u8 z) = z mod 256.
Proof.
  unfold byte_to_Z, u8.
  assert (Hm : 0 <= z mod 256 < 256) by (apply Z.mod_pos_bound; lia).
  destruct (Byte.of_N (Z.to_N (z mod 256))) as [b|] eqn:E.
  - apply Byte.to_of_N in E. rewrite E. apply Z2N.id. lia.
  - apply Byte.of_N_None_iff in E. lia.
Qed.

Lemma le_value_shifts n :
  0 <= n -> forall k s,
  le_value (map (fun i => u8 (Z.shiftr n (8 * Z.of_nat i))) (seq s k))
  = (n / 2 ^ (8 * Z.of_nat s)) mod 2 ^ (8 * Z.of_nat k).
Proof.
  intros Hn. induction k as [|k IH]; intros s.
  - simpl. now rewrite Z.mod_1_r.
  - cbn [seq map le_value fold_right].
    fold (le_value (map (fun i => u8 (Z.shiftr n (8 * Z.of_nat i))) (seq (S s) k))).
    rewrite IH, byte_to_Z_u8, Z.shiftr_div_pow2 by lia.
    replace (8 * Z.of_nat (S s)) with (8 * Z.of_nat s + 8) by lia.
    replace (8 * Z.of_nat (S k)) with (8 + 8 * Z.of_nat k) by lia.
    rewrite !Z.pow_add_r by lia.
    rewrite <- Z.div_div by lia.
    change (2 ^ 8) with 256.
    symmetry. apply Z.rem_mul_r; lia.
Qed.

(** X4.  [u64LE] writes an integer of the unsigned 64-bit range as
    exactly eight bytes from which the integer is read back, least
    significant byte first; outside the range it throws a range error and
    writes nothing. *)
Theorem u64LE_round_trip (n : Z) :
  (0 <= n < 2 ^ 64 ->
   exists bs, u64LE n = Ok bs /\ List.length bs = 8%nat /\ le_value bs = n) /\
  (n < 0 \/ 2 ^ 64 <= n -> u64LE n = Throw (RangeError n)).
Proof.
  unfold u64LE. split.
  - intros [H0 H1].
    replace (0 <=? n) with true by (symmetry; apply Z.leb_le; lia).
    replace (n <? 2 ^ 64) with true by (symmetry; apply Z.ltb_lt; lia).
    eexists. split; [reflexivity|]. split; [reflexivity|].
    rewrite le_value_shifts by lia.
    change (8 * Z.of_nat 0) with 0. rewrite Z.pow_0_r, Z.div_1_r.
    apply Z.mod_small. change (8 * Z.of_nat 8) with 64. lia.
  - intros [H|H].
    + replace (0 <=? n) with false by (symmetry; apply Z.leb_gt; lia). reflexivity.
    + replace (n <? 2 ^ 64) with false by (symmetry; apply Z.ltb_ge; lia).
      now rewrite andb_false_r.
Qed.

(** X4, an instance: 258 is the bytes 2, 1, 0, 0, 0, 0, 0, 0. *)
Lemma u64LE_round_trip_witness :
  exists bs, u64LE 258 = Ok bs /\ List.length bs = 8%nat /\ le_value bs = 258.
Proof.
  apply (proj1 (u64LE_round_trip 258)). lia.
Defined.

(** ** Keys that do not parse *)

Section BadKeys.
Context {W : Web3} (cluster : Cluster).

Lemma load_config_quiet opts env tr r tr' :
  Interact.load_config opts env tr = (r, tr') -> tr' = tr.
Proof.
  unfold Interact.load_config, bind, new_PublicKey, ret, throw.
  repeat match goal with
         | |- context [fromBase58 ?t] => destruct (fromBase58 t)
         end;
    intros H; inversion H; reflexivity.
Qed.

(** X5.  A Router or Slab program id that is not a public key stops the
    script while its constants are set up: the exception is thrown out of
    the script, outside the run's [catch], so "Fatal" is not printed, and
    nothing at all has been printed or called. *)
Theorem invalid_program_id_is_thrown_at_load
  (host : Host) (opts : Interact.Opts) (env : Interact.Env) (tr : Trace)
  (which : Target) (text : string)
  (Htext : text = match which with
                  | Router => router_text opts env
                  | Slab => slab_text opts env
                  end)
  (Hrouter : which = Slab -> fromBase58 (router_text opts env) <> None)
  (Hbad : fromBase58 text = None) :
  Interact.main cluster host opts env tr = (Throw (InvalidPublicKey text), tr).
Proof.
  subst text. unfold Interact.main, Interact.load_config, bind, new_PublicKey, throw.
  fold (router_text opts env). fold (slab_text opts env).
  destruct which.
  - now rewrite Hbad.
  - destruct (fromBase58 (router_text opts env)) as [k|] eqn:E.
    + unfold ret. now rewrite Hbad.
    + exfalso. now apply Hrouter.
Qed.



End BadKeys.

(** X5, an instance: [--router router] under a library that wants 32
    characters. *)
Lemma invalid_program_id_is_thrown_at_load_witness :
  Interact.main (W := picky_web3) empty_cluster sample_host bad_router_opts no_env []
  = (Throw (InvalidPublicKey "router"), []).
Proof.
  apply (invalid_program_id_is_thrown_at_load (W := picky_web3) empty_cluster sample_host
           bad_router_opts no_env [] Router "router").
  - reflexivity.
  - discriminate.
  - reflexivity.
Defined.


(** ** How a run ends *)

Lemma ends_done_last : ends_done (console (OutText "Done.")).
Proof. intros tr. exists []. split; [constructor|]. reflexivity. Qed.

Lemma ends_done_bind {A} (m : M A) (k : A -> M unit) :
  emits m body_line -> (forall a, ends_done (k a)) -> ends_done (bind m k).
Proof.
  intros Hm Hk tr. unfold bind.
  destruct (Hm tr) as (e1 & E1 & H1).
  destruct (m tr) as [[a|e] tr1]; simpl in E1; subst tr1.
  - destruct (Hk a (tr ++ e1)) as (e2 & H2 & E2).
    exists (e1 ++ e2). split; [apply Forall_app; auto|].
    destruct (k a (tr ++ e1)) as [[u|e] tr2]; subst tr2; now rewrite <- !app_assoc.
  - exists e1. auto.
Qed.

Ltac body_lines := repeat emits_step; first [exact I | reflexivity].

Section RunEnd.
Context {W : Web3} (cluster : Cluster).

Lemma main_body_ends_done host opts env cfg :
  ends_done (Interact.main_body cluster host opts env cfg).
Proof.
  unfold Interact.main_body.
  apply ends_done_bind; [unfold Interact.tryLoadPayer; body_lines | intros identity].
  apply ends_done_bind; [unfold Interact.default_USER; body_lines | intros user_].
  apply ends_done_bind; [unfold Interact.default_MINT; body_lines | intros mint_].
  apply ends_done_bind; [body_lines | intros version].
  do 9 (apply ends_done_bind; [body_lines | intros _]).
  apply ends_done_bind; [unfold Interact.getPresence; body_lines | ].
  intros [[[systemPresence memoPresence] routerPresence] slabPresence].
  do 5 (apply ends_done_bind; [body_lines | intros _]).
  apply ends_done_bind; [unfold Interact.derivePDAs; body_lines | intros p].
  apply ends_done_bind; [body_lines | intros _].
  apply ends_done_bind;
    [unfold Interact.reportMeta, Interact.fetchMeta; body_lines | intros _].
  apply ends_done_bind; [body_lines | intros _].
  apply ends_done_bind;
    [unfold Interact.simulateBlock, Interact.simulateNoop; body_lines | intros _].
  apply ends_done_last.
Qed.

(** X7.  Once the constants are set up, a run never lets an exception
    out and ends in exactly one of two ways: with "Done." as its last
    line when the body completed, or with "Fatal" and exit code 1 when the
    body threw.  Before these last lines the run prints none of "Done.",
    "Fatal" or an exit. *)
Theorem run_ends_in_done_or_fatal
  (host : Host) (opts : Interact.Opts) (env : Interact.Env) (cfg : Interact.Config)
  (tr : Trace)
  (Hcfg : fst (Interact.load_config opts env tr) = Ok cfg) :
  exists evs,
    Forall body_line evs /\
    Interact.main cluster host opts env tr
    = (Ok tt,
       tr ++ evs ++
       match fst (Interact.main_body cluster host opts env cfg tr) with
       | Ok _ => [Console (OutText "Done.")]
       | Throw e => [Console (OutFatal e); Console (OutExit 1)]
       end).
Proof.
  destruct (Interact.load_config opts env tr) as [r t0] eqn:Hload.
  simpl in Hcfg. subst r. pose proof (load_config_quiet _ _ _ _ _ Hload). subst t0.
  destruct (main_body_ends_done host opts env cfg tr) as (evs & Hevs & Hrun).
  exists evs. split; [exact Hevs|].
  unfold Interact.main, bind at 1. rewrite Hload. unfold try_catch.
  destruct (Interact.main_body cluster host opts env cfg tr) as [[u|e] tr'];
    subst tr'; simpl.
  - now destruct u.
  - unfold bind, console, emit. now rewrite <- !app_assoc.
Qed.

(** X8.  The dry-run block never throws.  When the simulation of a program
    fails, be it the blockhash or the simulate call, the block prints the
    failure with the error's message, then an empty line, and completes;
    so whatever follows it in the run, the block of the other program
    included, still runs. *)
Theorem failed_simulation_is_logged_and_the_run_goes_on
  (who : Target) (presence : Presence) (c : Connection) (identity : Keypair)
  (program : PublicKey) (tr tr2 : Trace) (e : Exn)
  (Hexec : presence = ExecutableProgram)
  (Hfail : Interact.simulateNoop cluster c identity program
             (tr ++ [Console (OutSimulating who)]) = (Throw e, tr2)) :
  Interact.simulateBlock cluster who presence c identity program tr
  = (Ok tt, tr2 ++ [Console (OutSimulateFailed who (message e)); Console (OutText "")]) /\
  (forall (next : M unit),
     bind (Interact.simulateBlock cluster who presence c identity program) (fun _ => next) tr
     = next (tr2 ++ [Console (OutSimulateFailed who (message e)); Console (OutText "")])) /\
  (forall who' presence' program' tr',
     fst (Interact.simulateBlock cluster who' presence' c identity program' tr') = Ok tt).
Proof.
  assert (Hblock :
    Interact.simulateBlock cluster who presence c identity program tr
    = (Ok tt, tr2 ++ [Console (OutSimulateFailed who (message e)); Console (OutText "")])).
  { subst presence. unfold Interact.simulateBlock. decide_gate.
    unfold bind at 1, console at 1, emit at 1.
    unfold bind at 1, try_catch, bind at 1. rewrite Hfail.
    unfold console, emit, bind. now rewrite <- !app_assoc. }
  split; [exact Hblock|]. split.
  - intros next. unfold bind at 1. now rewrite Hblock.
  - intros who' presence' program' tr'. unfold Interact.simulateBlock.
    destruct presence'; decide_gate; try reflexivity.
    unfold bind, try_catch, console, emit.
    destruct (Interact.simulateNoop cluster c identity program' _) as [[res|e'] t];
      reflexivity.
Qed.

End RunEnd.

(** X7, an instance: a run with no flags against a cluster that has no
    account. *)
Lemma run_ends_in_done_or_fatal_witness :
  exists evs,
    Forall body_line evs /\
    Interact.main (W := sample_web3) empty_cluster sample_host no_opts no_env []
    = (Ok tt, [] ++ evs ++ [Console (OutText "Done.")]).
Proof.
  apply (run_ends_in_done_or_fatal (W := sample_web3) empty_cluster sample_host
           no_opts no_env
           (value_or sample_config
              (fst (Interact.load_config (W := sample_web3) no_opts no_env [])))
           []).
  vm_compute. reflexivity.
Defined.

(** X8, an instance: the blockhash cannot be fetched for the Router
    program. *)
Lemma failed_simulation_is_logged_and_the_run_goes_on_witness :
  Interact.simulateBlock no_blockhash_cluster Router ExecutableProgram sample_connection
    sample_keypair (router_id sample_ids) []
  = (Ok tt,
     [Console (OutSimulating Router);
      Rpc sample_connection GetLatestBlockhash;
      Console (OutSimulateFailed Router "blockhash unavailable");
      Console (OutText "")]).
Proof.
  apply (proj1 (failed_simulation_is_logged_and_the_run_goes_on
                  no_blockhash_cluster Router ExecutableProgram sample_connection
                  sample_keypair (router_id sample_ids) []
                  [Console (OutSimulating Router); Rpc sample_connection GetLatestBlockhash]
                  (TransportError "blockhash unavailable")
                  eq_refl eq_refl)).
Defined.

(** ** The calls of a request and of a run *)

Lemma rpc_calls_app (xs ys : list Event) :
  rpc_calls (xs ++ ys) = rpc_calls xs ++ rpc_calls ys.
Proof.
  induction xs as [|x xs IH]; simpl; [reflexivity|].
  destruct x; simpl; now rewrite IH.
Qed.

Lemma rpc_calls_quiet (evs : list Event) : Forall no_call evs -> rpc_calls evs = [].
Proof.
  induction 1 as [|e evs He _ IH]; simpl; [reflexivity|].
  destruct e; [contradiction|exact IH|exact IH].
Qed.

Lemma rpc_calls_console evs : Forall is_console evs -> rpc_calls evs = [].
Proof.
  intros H. apply rpc_calls_quiet. eapply Forall_impl; [|exact H].
  intros [] He; simpl in *; auto.
Qed.

Lemma quiet_run {A} (m : M A) tr r tr' :
  emits m no_call -> m tr = (r, tr') -> exists evs, tr' = tr ++ evs /\ rpc_calls evs = [].
Proof.
  intros Hm Hrun. destruct (Hm tr) as (evs & E & H). rewrite Hrun in E. simpl in E.
  exists evs. split; [exact E|]. now apply rpc_calls_quiet.
Qed.

Lemma emits_bind_when {A B} (m : M A) (k : A -> M B) (P : Event -> Prop) (R : A -> Prop) :
  (forall tr a tr', m tr = (Ok a, tr') -> R a) ->
  emits m P -> (forall a, R a -> emits (k a) P) -> emits (bind m k) P.
Proof.
  intros HR Hm Hk tr. unfold bind.
  destruct (Hm tr) as (e1 & E1 & H1).
  destruct (m tr) as [[a|e] tr1] eqn:Hrun; simpl in E1; subst tr1.
  - destruct (Hk a (HR _ _ _ Hrun) (tr ++ e1)) as (e2 & E2 & H2).
    exists (e1 ++ e2). rewrite E2, app_assoc. split; [reflexivity|].
    apply Forall_app; auto.
  - exists e1. auto.
Qed.

Lemma Promise_all_four_inv {A} (t1 t2 t3 t4 : M A) tr rows tr' :
  Promise_all [t1; t2; t3; t4] tr = (Ok rows, tr') ->
  exists a b c d tr1 tr2 tr3,
    t1 tr = (Ok a, tr1) /\ t2 tr1 = (Ok b, tr2) /\ t3 tr2 = (Ok c, tr3) /\
    t4 tr3 = (Ok d, tr') /\ rows = [a; b; c; d].
Proof.
  unfold Promise_all. simpl.
  destruct (t1 tr) as [r1 tr1] eqn:E1. destruct (t2 tr1) as [r2 tr2] eqn:E2.
  destruct (t3 tr2) as [r3 tr3] eqn:E3. destruct (t4 tr3) as [r4 tr4] eqn:E4.
  destruct r1 as [a|], r2 as [b|], r3 as [c|], r4 as [d|]; simpl; try discriminate.
  intros H. inversion H; subst. exists a, b, c, d, tr1, tr2, tr3.
  repeat split; assumption || reflexivity.
Qed.

Lemma Promise_all4_ok_inv {A} (t1 t2 t3 t4 : M A) tr r tr' :
  Promise_all4 t1 t2 t3 t4 tr = (Ok r, tr') ->
  exists a b c d tr1 tr2 tr3,
    t1 tr = (Ok a, tr1) /\ t2 tr1 = (Ok b, tr2) /\ t3 tr2 = (Ok c, tr3) /\
    t4 tr3 = (Ok d, tr') /\ r = (a, b, c, d).
Proof.
  unfold Promise_all4.
  destruct (t1 tr) as [r1 tr1] eqn:E1. destruct (t2 tr1) as [r2 tr2] eqn:E2.
  destruct (t3 tr2) as [r3 tr3] eqn:E3. destruct (t4 tr3) as [r4 tr4] eqn:E4.
  destruct r1 as [a|], r2 as [b|], r3 as [c|], r4 as [d|]; simpl; try discriminate.
  intros H. inversion H; subst. exists a, b, c, d, tr1, tr2, tr3.
  repeat split; assumption || reflexivity.
Qed.

Section Requests.
Context {W : Web3} (cluster : Cluster).

Lemma dashboard_tryLoadPayer_warns host denv tr :
  exists identity warnings,
    Dashboard.tryLoadPayer host denv tr = (Ok identity, tr ++ warnings) /\
    Forall is_console warnings.
Proof.
  unfold Dashboard.tryLoadPayer.
  destruct (readKeypair host _) as [|kp|msg].
  - exists (generated host), [Console OutWarnEphemeral]. split; [reflexivity|].
    repeat constructor.
  - exists kp, []. unfold ret. rewrite app_nil_r. split; [reflexivity|]. constructor.
  - exists (generated host),
      [Console (OutWarnLoadFailed
                  (or_else (Dashboard.env_PAYER denv) (defaultKeypairPath host)) msg);
       Console OutWarnEphemeral].
    split; [|repeat constructor].
    unfold bind, console, emit, ret. now rewrite <- app_assoc.
Qed.

Lemma presenceRow_ok_inv c label pk t row t' :
  Dashboard.presenceRow cluster c label pk t = (Ok row, t') ->
  exists key reply,
    fromBase58 pk = Some key /\
    reply_getAccountInfo cluster c t key = Ok reply /\
    t' = t ++ [Rpc c (GetAccountInfo key)] /\
    Dashboard.p_label row = label /\ Dashboard.p_pubkey row = pk /\
    Dashboard.status_of (Dashboard.p_info row) = classify reply.
Proof.
  unfold Dashboard.presenceRow, Dashboard.getPresence. intros H.
  apply bind_ok_inv in H. destruct H as (info & t1 & Hinfo & H).
  apply ret_ok_inv in H. destruct H as [-> ->].
  run_step Hinfo.
  apply bind_ok_inv in Hinfo. destruct Hinfo as (ai & t2 & Hai & H).
  unfold getAccountInfo in Hai. inversion Hai; subst. clear Hai.
  exists v, ai. repeat split; auto.
  - destruct ai; apply ret_ok_inv in H; tauto.
  - destruct ai as [i|]; apply ret_ok_inv in H; destruct H as [-> _]; reflexivity.
Qed.




Lemma metaRow_trace c label pk t1 row t2 :
  Dashboard.metaRow cluster c (label, pk) t1 = (Ok row, t2) ->
  exists key, fromBase58 pk = Some key /\ t2 = t1 ++ [Rpc c (GetAccountInfo key)] /\
              Dashboard.m_label row = label /\ Dashboard.m_pubkey row = pk.
Proof.
  unfold Dashboard.metaRow. intros H.
  run_step H. apply bind_ok_inv in H. destruct H as (ai & t & Hai & H).
  unfold getAccountInfo in Hai. inversion Hai; subst.
  apply ret_ok_inv in H. destruct H as [-> ->].
  exists v. repeat split; auto.
Qed.

Lemma status_body_version host denv rpc_ routerPk_ slabPk_ market reply tr :
  let c := {| rpcEndpoint := rpc_; commitment := "confirmed" |} in
  let version := match reply c tr with Ok v => v | Throw _ => "{}" end in
  Dashboard.status_body (with_version_reply cluster reply) host denv rpc_ routerPk_ slabPk_
    market tr
  = (map_result
       (fun b => match with_body_version version (Dashboard.Json200 b) with
                 | Dashboard.Json200 b' => b'
                 | Dashboard.Json500 _ => b
                 end)
       (fst (Dashboard.status_body cluster host denv rpc_ routerPk_ slabPk_ market tr)),
     snd (Dashboard.status_body cluster host denv rpc_ routerPk_ slabPk_ market tr)).
Proof.
  intros c version. unfold Dashboard.status_body.
  change (Dashboard.presenceRow (with_version_reply cluster reply))
    with (Dashboard.presenceRow cluster).
  change (Dashboard.metaRow (with_version_reply cluster reply))
    with (Dashboard.metaRow cluster).
  fold c.
  assert (Hv : forall cl, try_catch (getVersion cl c) (fun _ => ret "{}") tr
                          = (Ok (match reply_getVersion cl c tr with
                                 | Ok v => v
                                 | Throw _ => "{}"
                                 end),
                             tr ++ [Rpc c GetVersion])).
  { intros cl. unfold try_catch, getVersion, ret.
    destruct (reply_getVersion cl c tr); reflexivity. }
  unfold bind. rewrite (Hv cluster), (Hv (with_version_reply cluster reply)).
  simpl reply_getVersion. fold version.
  generalize (tr ++ [Rpc c GetVersion]). intros t.
  destruct (Dashboard.tryLoadPayer host denv t) as [[payer|e] t1]; [|reflexivity].
  destruct (Promise_all _ t1) as [[pres|e] t2]; [|reflexivity].
  destruct (Dashboard.deriveAllPDAs _ t2) as [[p|e] t3]; [|reflexivity].
  destruct (for_push _ _ t3) as [[metas|e] t4]; reflexivity.
Qed.

(** X9.  The version call of the dashboard cannot change anything but
    the version field.  Replace the cluster's answer to [getVersion] by
    any other, a failure included: the request makes the same calls in
    the same order and gives the same answer, 200 or 500, except that a
    200 carries the new version, or the empty object when the call
    failed. *)
Theorem version_call_changes_only_the_version_field
  (host : Host) (denv : Dashboard.Env) (query : Dashboard.Query)
  (reply : Connection -> Trace -> Result string) (tr : Trace) :
  let c := {| rpcEndpoint := or_else (Dashboard.rpc query) (Dashboard.DEFAULT_RPC denv);
              commitment := "confirmed" |} in
  let version := match reply c tr with Ok v => v | Throw _ => "{}" end in
  Dashboard.api_status (with_version_reply cluster reply) host denv query tr
  = (map_result (with_body_version version)
       (fst (Dashboard.api_status cluster host denv query tr)),
     snd (Dashboard.api_status cluster host denv query tr)).
Proof.
  intros c version. rewrite !api_status_run. rewrite status_body_version.
  fold c version.
  destruct (Dashboard.status_body cluster _ _ _ _ _ _ tr) as [[body|e] tr']; reflexivity.
Qed.

(** X10.  A dashboard request only observes.  Whatever the query and
    whatever the cluster answers, the handler answers (with a 200 or a
    500, it lets no exception out), and all it does on the way is: version
    calls and account reads, every one of them on the endpoint the query
    names (the default one when it names none) at commitment
    "confirmed"; derivations; console lines.  It fetches no blockhash,
    simulates and sends no transaction, and never exits the process. *)
Theorem dashboard_request_only_observes
  (host : Host) (denv : Dashboard.Env) (query : Dashboard.Query) :
  let c := {| rpcEndpoint := or_else (Dashboard.rpc query) (Dashboard.DEFAULT_RPC denv);
              commitment := "confirmed" |} in
  emits (Dashboard.api_status cluster host denv query) (read_only_on c) /\
  (forall tr, exists response,
     fst (Dashboard.api_status cluster host denv query tr) = Ok response).
Proof.
  intros c. split.
  - unfold Dashboard.api_status, Dashboard.status_body, Dashboard.tryLoadPayer,
      Dashboard.presenceRow, Dashboard.getPresence, Dashboard.deriveAllPDAs,
      Dashboard.metaRow.
    repeat emits_step; first [exact I | reflexivity].
  - intros tr. rewrite api_status_run.
    destruct (Dashboard.status_body _ _ _ _ _ _ _ tr) as [[body|e] tr']; simpl; eauto.
Qed.

(** X11.  What an answer 200 has cost.  The request made exactly sixteen
    transport calls, in this order: the version call, the reads of
    System, Memo, Router and Slab for the presence table, the same four
    reads again for the metas table, and the reads of the seven derived
    addresses the answer lists.  The presence rows are those of the four
    programs and the metas rows those of the four programs followed by
    the seven addresses, in order. *)
Theorem answered_request_costs_sixteen_calls
  (host : Host) (denv : Dashboard.Env) (query : Dashboard.Query) (tr tr' : Trace)
  (body : Dashboard.StatusBody)
  (Hok : Dashboard.api_status cluster host denv query tr
         = (Ok (Dashboard.Json200 body), tr')) :
  let c := {| rpcEndpoint := or_else (Dashboard.rpc query) (Dashboard.DEFAULT_RPC denv);
              commitment := "confirmed" |} in
  let programs := [ Dashboard.SYSTEM_ID; Dashboard.MEMO_ID;
                    or_else (Dashboard.router query) Dashboard.DEFAULT_ROUTER;
                    or_else (Dashboard.slab query) Dashboard.DEFAULT_SLAB ] in
  exists evs keys,
    tr' = tr ++ evs /\
    map fromBase58 (programs ++ programs ++ map snd (Dashboard.body_pdas body))
    = map Some keys /\
    rpc_calls evs = (c, GetVersion) :: reads_on c keys /\
    List.length (rpc_calls evs) = 16%nat /\
    map Dashboard.p_pubkey (Dashboard.body_presence body) = programs /\
    map Dashboard.m_pubkey (Dashboard.body_metas body)
    = programs ++ map snd (Dashboard.body_pdas body).
Proof.
  intros c programs. rewrite api_status_run in Hok.
  destruct (Dashboard.status_body _ _ _ _ _ _ _ tr) as [[body'|e] t] eqn:Hrun;
    inversion Hok; subst; clear Hok.
  unfold Dashboard.status_body in Hrun. fold c in Hrun.
  apply bind_ok_inv in Hrun. destruct Hrun as (version & t1 & Hv & Hrun).
  assert (t1 = tr ++ [Rpc c GetVersion]) as ->.
  { unfold try_catch, getVersion, ret in Hv.
    destruct (reply_getVersion cluster c tr); inversion Hv; reflexivity. }
  clear Hv.
  apply bind_ok_inv in Hrun. destruct Hrun as (payer & t2 & Hp & Hrun).
  destruct (dashboard_tryLoadPayer_warns host denv (tr ++ [Rpc c GetVersion]))
    as (identity & warnings & Hw & Hquiet).
  rewrite Hw in Hp. inversion Hp; subst; clear Hp Hw.
  apply bind_ok_inv in Hrun. destruct Hrun as (pres & t3 & Hpres & Hrun).
  apply Promise_all_four_inv in Hpres.
  destruct Hpres as (r1 & r2 & r3 & r4 & u1 & u2 & u3 & H1 & H2 & H3 & H4 & ->).
  apply presenceRow_ok_inv in H1, H2, H3, H4.
  destruct H1 as (k1 & a1 & K1 & _ & -> & _ & P1 & _).
  destruct H2 as (k2 & a2 & K2 & _ & -> & _ & P2 & _).
  destruct H3 as (k3 & a3 & K3 & _ & -> & _ & P3 & _).
  destruct H4 as (k4 & a4 & K4 & _ & -> & _ & P4 & _).
  apply bind_ok_inv in Hrun. destruct Hrun as (p & t4 & Hd & Hrun).
  apply deriveAllPDAs_ok_inv in Hd.
  destruct Hd as (ids & user_ & mint_ & address & _ & _ & _ & _ & _ & -> & Hpda).
  apply bind_ok_inv in Hrun. destruct Hrun as (metas & t5 & Hm & Hrun).
  apply ret_ok_inv in Hrun. destruct Hrun as [-> ->].
  unfold Dashboard.pdaRows in Hm. cbn [app for_push] in Hm.
  repeat match goal with
         | H : bind (Dashboard.metaRow _ _ _) _ _ = (Ok _, _) |- _ =>
             let row := fresh "row" in
             let t := fresh "t" in
             let Hrow := fresh "Hrow" in
             apply bind_ok_inv in H; destruct H as (row & t & Hrow & H);
             apply metaRow_trace in Hrow;
             let key := fresh "key" in
             let Hkey := fresh "Hkey" in
             let Hlab := fresh "Hlab" in
             let Hpk := fresh "Hpk" in
             destruct Hrow as (key & Hkey & -> & Hlab & Hpk);
             apply bind_ok_inv in H;
             let rest := fresh "rest" in
             let t' := fresh "t" in
             let Hrest := fresh "Hrest" in
             destruct H as (rest & t' & Hrest & H);
             apply ret_ok_inv in H; destruct H as [-> ->];
             rename Hrest into H
         | H : ret _ _ = (Ok _, _) |- _ => apply ret_ok_inv in H; destruct H as [-> ->]
         end.
  eexists.
  exists ([k1; k2; k3; k4] ++ [key; key0; key1; key2]
          ++ [key3; key4; key5; key6; key7; key8; key9]).
  split; [rewrite <- !app_assoc; reflexivity|].
  split; [|split; [|split; [|split]]].
  - unfold programs. simpl. repeat f_equal; congruence.
  - rewrite !rpc_calls_app, (rpc_calls_console _ Hquiet). reflexivity.
  - rewrite !rpc_calls_app, (rpc_calls_console _ Hquiet). reflexivity.
  - unfold programs. simpl. congruence.
  - unfold programs. simpl. congruence.
Qed.


(** X14.  The pill of the presence table.  For a presence row the server
    has built from the answer to its read, the page shows the status in
    the "ok" pill exactly when the account exists: the test is that the
    status contains "executable", which "non-executable account" does
    too, so only "not found" gets the "warn" pill. *)
Theorem presence_pill_is_ok_for_every_account_that_exists
  (c : Connection) (label pk : string) (t t' : Trace) (row : Dashboard.PresenceRow)
  (Hrow : Dashboard.presenceRow cluster c label pk t = (Ok row, t')) :
  exists key reply,
    fromBase58 pk = Some key /\
    reply_getAccountInfo cluster c t key = Ok reply /\
    Page.presenceCell (presence_text (Dashboard.status_of (Dashboard.p_info row)))
    = Page.pill (presence_text (classify reply))
        (match reply with Some _ => true | None => false end).
Proof.
  apply presenceRow_ok_inv in Hrow.
  destruct Hrow as (key & reply & Hkey & Hreply & _ & _ & _ & ->).
  exists key, reply. repeat split; auto.
  destruct reply as [i|]; simpl; [destruct (executable i)|]; reflexivity.
Qed.

Lemma load_config_RPC_URL opts env tr cfg tr' :
  Interact.load_config opts env tr = (Ok cfg, tr') ->
  Interact.RPC_URL cfg
  = or_else (Interact.rpc opts) (or_else (Interact.env_RPC_URL env) "http://127.0.0.1:8899").
Proof.
  intros H. unfold Interact.load_config in H. repeat run_step H. subst. reflexivity.
Qed.

(** X12.  A run talks to one endpoint only.  Every transport call of the
    script, reads and dry runs alike, is made on the endpoint that
    [--rpc] names, else the one RPC_URL names, else the local default,
    at commitment "confirmed". *)
Theorem run_calls_only_the_chosen_endpoint
  (host : Host) (opts : Interact.Opts) (env : Interact.Env) :
  let c := {| rpcEndpoint :=
                or_else (Interact.rpc opts)
                  (or_else (Interact.env_RPC_URL env) "http://127.0.0.1:8899");
              commitment := "confirmed" |} in
  emits (Interact.main cluster host opts env) (calls_on c).
Proof.
  intros c. unfold Interact.main.
  apply emits_bind_when with
    (R := fun cfg => {| rpcEndpoint := Interact.RPC_URL cfg; commitment := "confirmed" |} = c).
  - intros tr cfg tr' H. apply load_config_RPC_URL in H. unfold c. now rewrite H.
  - unfold Interact.load_config. repeat emits_step.
  - intros cfg Hc.
    unfold Interact.main_body, Interact.tryLoadPayer,
      Interact.default_USER, Interact.default_MINT, Interact.getPresence,
      Interact.derivePDAs, Interact.reportMeta, Interact.fetchMeta,
      Interact.simulateBlock, Interact.simulateNoop.
    rewrite Hc.
    repeat emits_step; first [exact I | reflexivity].
Qed.

Lemma getPresence_ok_inv c pk t p t' :
  Interact.getPresence cluster c pk t = (Ok p, t') -> t' = t ++ [Rpc c (GetAccountInfo pk)].
Proof.
  unfold Interact.getPresence, bind, getAccountInfo.
  destruct (reply_getAccountInfo cluster c t pk) as [[i|]|e]; unfold ret; intros H;
    inversion H; reflexivity.
Qed.

Lemma reportMeta_loop_calls c (xs : list (string * PublicKey)) t t' :
  for_of xs (Interact.reportMeta cluster c) t = (Ok tt, t') ->
  exists evs, t' = t ++ evs /\ rpc_calls evs = reads_on c (map snd xs).
Proof.
  revert t. induction xs as [|[label pk] xs IH]; intros t H; simpl in H.
  - apply ret_ok_inv in H. destruct H as [_ ->]. exists []. now rewrite app_nil_r.
  - apply bind_ok_inv in H. destruct H as (u & t1 & Hrow & H).
    apply IH in H. destruct H as (evs & -> & Hevs).
    unfold Interact.reportMeta, Interact.fetchMeta, bind, getAccountInfo in Hrow.
    destruct (reply_getAccountInfo cluster c t pk) as [[i|]|e];
      unfold ret, console, emit in Hrow; inversion Hrow; subst; clear Hrow.
    + eexists. split; [rewrite <- !app_assoc; reflexivity|]. simpl. now rewrite Hevs.
    + eexists. split; [rewrite <- !app_assoc; reflexivity|]. simpl. now rewrite Hevs.
Qed.

Lemma simulateBlock_calls who presence c identity program t :
  exists evs,
    Interact.simulateBlock cluster who presence c identity program t = (Ok tt, t ++ evs) /\
    Forall is_simulation_call (rpc_calls evs) /\
    (List.length (rpc_calls evs) <= 2)%nat.
Proof.
  unfold Interact.simulateBlock.
  destruct presence; decide_gate.
  - exists [Console (OutSkipping who)]. repeat split; simpl; auto.
  - unfold bind, try_catch, Interact.simulateNoop, bind, getLatestBlockhash,
      simulateTransaction, console, emit, ret.
    destruct (reply_getLatestBlockhash cluster c _) as [token|e].
    + destruct (reply_simulateTransaction cluster c _ _ _) as [res|e];
        (eexists; split; [rewrite <- !app_assoc; reflexivity|]);
        simpl; split; [repeat constructor| lia | repeat constructor | lia].
    + eexists; split; [rewrite <- !app_assoc; reflexivity|].
      simpl. split; [repeat constructor | lia].
  - exists [Console (OutSkipping who)]. repeat split; simpl; auto.
Qed.

Lemma default_USER_quiet opts env identity :
  emits (Interact.default_USER opts env identity) no_call.
Proof. unfold Interact.default_USER. repeat emits_step. Qed.

Lemma default_MINT_quiet opts env user_ :
  emits (Interact.default_MINT opts env user_) no_call.
Proof. unfold Interact.default_MINT. repeat emits_step. Qed.

Lemma tryLoadPayer_quiet host opts env :
  emits (Interact.tryLoadPayer host opts env) no_call.
Proof. unfold Interact.tryLoadPayer. repeat emits_step; exact I. Qed.

Lemma derivePDAs_quiet cfg user_ mint_ :
  emits (Interact.derivePDAs cfg user_ mint_) no_call.
Proof. unfold Interact.derivePDAs. repeat emits_step; exact I. Qed.

(** X16.  The calls of a run that reaches "Done.".  In order: the
    version call; the reads of System, Memo, Router and Slab for the
    presence lines; the reads of the eleven targets of the meta loop,
    which start with the same four programs and go on with the seven
    addresses the derivation block has produced; then the calls of the
    dry runs, which are blockhash and simulate calls only, at most four
    of them, and none when simulation is off. *)
Theorem completed_run_reads_each_program_twice
  (host : Host) (opts : Interact.Opts) (env : Interact.Env) (cfg : Interact.Config)
  (tr tr' : Trace)
  (Hrun : Interact.main_body cluster host opts env cfg tr = (Ok tt, tr')) :
  let c := {| rpcEndpoint := Interact.RPC_URL cfg; commitment := "confirmed" |} in
  let programs := [ Interact.SYSTEM_ID cfg; Interact.MEMO_ID cfg;
                    Interact.ROUTER_ID cfg; Interact.SLAB_ID cfg ] in
  exists evs user_ mint_ t p sims,
    tr' = tr ++ evs /\
    fst (Interact.derivePDAs cfg user_ mint_ t) = Ok p /\
    rpc_calls evs
    = (c, GetVersion) :: reads_on c (programs ++ map snd (Interact.targets cfg p)) ++ sims /\
    Forall is_simulation_call sims /\
    (List.length sims <= 4)%nat /\
    (Interact.SIMULATE cfg = false -> sims = []).
Proof.
  intros c programs. unfold Interact.main_body in Hrun. fold c in Hrun.
  apply bind_ok_inv in Hrun. destruct Hrun as (identity & t1 & H1 & Hrun).
  apply (quiet_run _ _ _ _ (tryLoadPayer_quiet host opts env)) in H1.
  destruct H1 as (e1 & -> & Q1).
  apply bind_ok_inv in Hrun. destruct Hrun as (user_ & t2 & H2 & Hrun).
  apply (quiet_run _ _ _ _ (default_USER_quiet opts env identity)) in H2.
  destruct H2 as (e2 & -> & Q2).
  apply bind_ok_inv in Hrun. destruct Hrun as (mint_ & t3 & H3 & Hrun).
  apply (quiet_run _ _ _ _ (default_MINT_quiet opts env user_)) in H3.
  destruct H3 as (e3 & -> & Q3).
  apply bind_ok_inv in Hrun. destruct Hrun as (version & t4 & Hv & Hrun).
  assert (t4 = ((tr ++ e1) ++ e2) ++ e3 ++ [Rpc c GetVersion]) as ->.
  { unfold try_catch, getVersion, ret in Hv.
    destruct (reply_getVersion cluster c _); inversion Hv; now rewrite <- !app_assoc. }
  clear Hv.
  do 9 run_step Hrun.
  apply bind_ok_inv in Hrun. destruct Hrun as (presences & t5 & Hp & Hrun).
  apply Promise_all4_ok_inv in Hp.
  destruct Hp as (p1 & p2 & p3 & p4 & u1 & u2 & u3 & P1 & P2 & P3 & P4 & ->).
  apply getPresence_ok_inv in P1, P2, P3, P4. subst u1 u2 u3 t5.
  do 5 run_step Hrun.
  apply bind_ok_inv in Hrun. destruct Hrun as (p & t6 & Hd & Hrun).
  pose proof (f_equal fst Hd) as Hp. simpl in Hp.
  apply (quiet_run _ _ _ _ (derivePDAs_quiet cfg user_ mint_)) in Hd.
  destruct Hd as (e6 & -> & Q6).
  run_step Hrun.
  apply bind_ok_inv in Hrun. destruct Hrun as (u & t7 & Hm & Hrun). destruct u.
  apply reportMeta_loop_calls in Hm. destruct Hm as (e7 & -> & Q7).
  run_step Hrun.
  apply bind_ok_inv in Hrun. destruct Hrun as (u & t8 & Hs & Hrun).
  apply console_ok_inv in Hrun. subst tr'.
  match type of Hs with _ ?t = _ => set (t0 := t) in * end.
  assert (Hsims : exists sims,
            t8 = t0 ++ sims /\ Forall is_simulation_call (rpc_calls sims) /\
            (List.length (rpc_calls sims) <= 4)%nat /\
            (Interact.SIMULATE cfg = false -> rpc_calls sims = [])).
  { destruct (Interact.SIMULATE cfg).
    - unfold bind in Hs.
      destruct (simulateBlock_calls Router p3 c identity (Interact.ROUTER_ID cfg) t0)
        as (s1 & E1 & F1 & L1).
      rewrite E1 in Hs.
      destruct (simulateBlock_calls Slab p4 c identity (Interact.SLAB_ID cfg) (t0 ++ s1))
        as (s2 & E2 & F2 & L2).
      rewrite E2 in Hs. inversion Hs; subst t8.
      exists (s1 ++ s2). rewrite app_assoc, rpc_calls_app, length_app.
      repeat split; [apply Forall_app; auto | lia | discriminate].
    - apply ret_ok_inv in Hs. destruct Hs as [_ ->].
      exists []. rewrite app_nil_r. repeat split; simpl; auto; lia. }
  destruct Hsims as (sims & -> & Fs & Ls & Hoff).
  eexists. exists user_, mint_. eexists. exists p, (rpc_calls sims).
  split; [unfold t0; rewrite <- !app_assoc; reflexivity|].
  split; [exact Hp|].
  split; [|auto].
  rewrite !rpc_calls_app, Q1, Q2, Q3, Q6, Q7. simpl.
  now rewrite app_nil_r.
Qed.

End Requests.

(** ** The page *)

Lemma tick_keeps s :
  page_invariant s ->
  page_invariant (Page.tick s) /\ Page.auto (Page.tick s) = Page.auto s /\
  Page.refreshes (Page.tick s)
  = (Page.refreshes s + (if Page.auto s then 1 else 0))%nat.
Proof.
  intros [Hb Hi]. unfold Page.tick.
  destruct (Page.auto s) eqn:Ha.
  - destruct Hi as (id & Ht & Hi). rewrite Hi. simpl.
    split; [|split; [exact Ha|lia]]. split; simpl; rewrite Ha; eauto.
  - rewrite Hi. simpl. split; [|split; [exact Ha|lia]]. split; rewrite Ha; auto.
Qed.

Lemma autoToggle_keeps s :
  page_invariant s ->
  page_invariant (Page.autoToggle s) /\
  Page.auto (Page.autoToggle s) = negb (Page.auto s).
Proof.
  intros [Hb Hi]. unfold Page.autoToggle.
  destruct (Page.auto s) eqn:Ha; simpl.
  - destruct Hi as (id & Ht & Hi). split; [|reflexivity].
    split; simpl; [reflexivity|]. rewrite Ht, Hi. simpl. now rewrite Nat.eqb_refl.
  - split; [|reflexivity]. split; simpl; [reflexivity|]. rewrite Hi. eauto.
Qed.

(** X15.  Auto refresh never doubles and really stops.  After any
    sequence of clicks on the Auto button and of timer firings on the
    loaded page: [auto] is on exactly when the button was clicked an odd
    number of times, and the button says so; while it is on exactly one
    interval is set, the one [timer] holds, so a firing calls [refresh]
    once; while it is off no interval is set, so a firing calls nothing. *)
Theorem auto_refresh_never_doubles (actions : list Page.Action) :
  let s := fold_left Page.step actions Page.loaded in
  page_invariant s /\
  Page.auto s = Nat.odd (clicks actions) /\
  Page.refreshes (Page.tick s) = (Page.refreshes s + (if Page.auto s then 1 else 0))%nat.
Proof.
  cbv zeta.
  assert (H : forall s0, page_invariant s0 ->
            page_invariant (fold_left Page.step actions s0) /\
            Page.auto (fold_left Page.step actions s0)
            = xorb (Page.auto s0) (Nat.odd (clicks actions))).
  { induction actions as [|a actions IH]; intros s0 H0; simpl.
    - split; [exact H0|]. now rewrite xorb_false_r.
    - destruct a; simpl.
      + destruct (autoToggle_keeps s0 H0) as [H1 E1].
        destruct (IH _ H1) as [H2 E2]. split; [exact H2|].
        rewrite E2, E1. rewrite Nat.odd_succ, <- Nat.negb_odd.
        destruct (Page.auto s0), (Nat.odd (clicks actions)); reflexivity.
      + destruct (tick_keeps s0 H0) as (H1 & E1 & _).
        destruct (IH _ H1) as [H2 E2]. split; [exact H2|]. now rewrite E2, E1. }
  destruct (H Page.loaded) as [H1 H2].
  - split; simpl; reflexivity.
  - split; [exact H1|]. split; [rewrite H2; reflexivity|].
    now apply tick_keeps.
Qed.

(** ** The roots of the dashboard *)

Section DashboardRoots.
Context {W : Web3} (cluster : Cluster).

Lemma dashboard_tryLoadPayer_identity host denv t identity t' :
  Dashboard.tryLoadPayer host denv t = (Ok identity, t') ->
  identity
  = match readKeypair host (or_else (Dashboard.env_PAYER denv) (defaultKeypairPath host)) with
    | FileLoaded kp => kp
    | _ => generated host
    end.
Proof.
  unfold Dashboard.tryLoadPayer.
  destruct (readKeypair host _); unfold bind, console, emit, ret; intros H;
    inversion H; reflexivity.
Qed.

(** X17.  In the dashboard the USER and MINT roots are always the payer.
    An answer 200 reports the same key as payer, user and mint: the key
    of the key pair read from the PAYER path (the default path when PAYER
    is not set), or of the generated one when that file does not load.
    The seven addresses it lists are the derivation for that key as both
    USER and MINT, under the Router, Slab and market of the query. *)
Theorem dashboard_roots_are_the_payer
  (host : Host) (denv : Dashboard.Env) (query : Dashboard.Query) (tr tr' : Trace)
  (body : Dashboard.StatusBody)
  (Hok : Dashboard.api_status cluster host denv query tr
         = (Ok (Dashboard.Json200 body), tr')) :
  let identity :=
    match readKeypair host
            (or_else (Dashboard.env_PAYER denv) (defaultKeypairPath host)) with
    | FileLoaded kp => kp
    | _ => generated host
    end in
  Dashboard.body_payer body = toBase58 (publicKey identity) /\
  Dashboard.body_user body = Dashboard.body_payer body /\
  Dashboard.body_mint body = Dashboard.body_payer body /\
  exists p t,
    fst (Dashboard.deriveAllPDAs
           {| Dashboard.routerPk := or_else (Dashboard.router query) Dashboard.DEFAULT_ROUTER;
              Dashboard.slabPk := or_else (Dashboard.slab query) Dashboard.DEFAULT_SLAB;
              Dashboard.userPk := Dashboard.body_payer body;
              Dashboard.mintPk := Dashboard.body_payer body;
              Dashboard.market_ :=
                or_else_js (Dashboard.market query) Dashboard.DEFAULT_MARKET |} t)
    = Ok p /\
    Dashboard.body_pdas body = Dashboard.pdaRows p.
Proof.
  intros identity. rewrite api_status_run in Hok.
  destruct (Dashboard.status_body _ _ _ _ _ _ _ tr) as [[body'|e] t] eqn:Hrun;
    inversion Hok; subst; clear Hok.
  unfold Dashboard.status_body in Hrun.
  apply bind_ok_inv in Hrun. destruct Hrun as (version & t1 & _ & Hrun).
  apply bind_ok_inv in Hrun. destruct Hrun as (payer & t2 & Hid & Hrun).
  apply dashboard_tryLoadPayer_identity in Hid. fold identity in Hid. subst payer.
  apply bind_ok_inv in Hrun. destruct Hrun as (pres & t3 & _ & Hrun).
  apply bind_ok_inv in Hrun. destruct Hrun as (p & t4 & Hp & Hrun).
  apply bind_ok_inv in Hrun. destruct Hrun as (metas & t5 & _ & Hrun).
  apply ret_ok_inv in Hrun. destruct Hrun as [-> _]. simpl.
  repeat split. exists p, t3. rewrite Hp. auto.
Qed.

End DashboardRoots.

(** ** The further properties at the sample instances *)

(** X11, an instance: the request of the sample dashboard against a
    cluster that answers its fifteen reads. *)
Lemma answered_request_costs_sixteen_calls_witness :
  exists evs keys,
    snd sample_healthy_request = [] ++ evs /\
    map (fromBase58 (Web3 := sample_web3))
      ([ Dashboard.SYSTEM_ID; Dashboard.MEMO_ID;
         Dashboard.DEFAULT_ROUTER; Dashboard.DEFAULT_SLAB ]
       ++ [ Dashboard.SYSTEM_ID; Dashboard.MEMO_ID;
            Dashboard.DEFAULT_ROUTER; Dashboard.DEFAULT_SLAB ]
       ++ map snd (Dashboard.body_pdas (body_of (fst sample_healthy_request))))
    = map Some keys /\
    rpc_calls evs = (sample_connection, GetVersion) :: reads_on sample_connection keys /\
    List.length (rpc_calls evs) = 16%nat /\
    map Dashboard.p_pubkey (Dashboard.body_presence (body_of (fst sample_healthy_request)))
    = [ Dashboard.SYSTEM_ID; Dashboard.MEMO_ID;
        Dashboard.DEFAULT_ROUTER; Dashboard.DEFAULT_SLAB ] /\
    map Dashboard.m_pubkey (Dashboard.body_metas (body_of (fst sample_healthy_request)))
    = [ Dashboard.SYSTEM_ID; Dashboard.MEMO_ID;
        Dashboard.DEFAULT_ROUTER; Dashboard.DEFAULT_SLAB ]
      ++ map snd (Dashboard.body_pdas (body_of (fst sample_healthy_request))).
Proof.
  apply (answered_request_costs_sixteen_calls (W := sample_web3) (flaky_cluster 15)
           sample_host no_dashboard_env no_query [] (snd sample_healthy_request)
           (body_of (fst sample_healthy_request))).
  vm_compute. reflexivity.
Defined.


(** X14, an instance: an account that holds data and is not a program
    gets the "ok" pill. *)
Lemma presence_pill_is_ok_for_every_account_that_exists_witness :
  exists key reply,
    fromBase58 (Web3 := sample_web3) Dashboard.DEFAULT_ROUTER = Some key /\
    reply_getAccountInfo (static_cluster (fun _ => Some sample_data_account))
      sample_connection [] key = Ok reply /\
    Page.presenceCell "non-executable account"
    = Page.pill (presence_text (classify reply))
        (match reply with Some _ => true | None => false end).
Proof.
  apply (presence_pill_is_ok_for_every_account_that_exists (W := sample_web3)
           (static_cluster (fun _ => Some sample_data_account))
           sample_connection "Router" Dashboard.DEFAULT_ROUTER []
           [Rpc sample_connection
              (GetAccountInfo (list_byte_of_string Dashboard.DEFAULT_ROUTER))]
           {| Dashboard.p_label := "Router";
              Dashboard.p_pubkey := Dashboard.DEFAULT_ROUTER;
              Dashboard.p_info :=
                Dashboard.PresenceOf NonExecutableAccount 890880 "router" 1 |}).
  vm_compute. reflexivity.
Defined.

(** X16, an instance: the sample run against a cluster that has no
    account. *)
Lemma completed_run_reads_each_program_twice_witness :
  exists evs user_ mint_ t p sims,
    snd sample_completed_run = [] ++ evs /\
    fst (Interact.derivePDAs (W := sample_web3) sample_config user_ mint_ t) = Ok p /\
    rpc_calls evs
    = (sample_connection, GetVersion)
      :: reads_on sample_connection
           ([ Interact.SYSTEM_ID sample_config; Interact.MEMO_ID sample_config;
              Interact.ROUTER_ID sample_config; Interact.SLAB_ID sample_config ]
            ++ map snd (Interact.targets sample_config p)) ++ sims /\
    Forall is_simulation_call sims /\
    (List.length sims <= 4)%nat /\
    (Interact.SIMULATE sample_config = false -> sims = []).
Proof.
  apply (completed_run_reads_each_program_twice (W := sample_web3) empty_cluster
           sample_host no_opts no_env sample_config [] (snd sample_completed_run)).
  vm_compute. reflexivity.
Defined.

(** X17, an instance: the answer to the sample request. *)
Lemma dashboard_roots_are_the_payer_witness :
  Dashboard.body_payer (body_of (fst sample_healthy_request))
  = toBase58 (Web3 := sample_web3) (publicKey sample_keypair) /\
  Dashboard.body_user (body_of (fst sample_healthy_request))
  = Dashboard.body_payer (body_of (fst sample_healthy_request)) /\
  Dashboard.body_mint (body_of (fst sample_healthy_request))
  = Dashboard.body_payer (body_of (fst sample_healthy_request)) /\
  exists p t,
    fst (Dashboard.deriveAllPDAs (W := sample_web3)
           {| Dashboard.routerPk := Dashboard.DEFAULT_ROUTER;
              Dashboard.slabPk := Dashboard.DEFAULT_SLAB;
              Dashboard.userPk := Dashboard.body_payer (body_of (fst sample_healthy_request));
              Dashboard.mintPk := Dashboard.body_payer (body_of (fst sample_healthy_request));
              Dashboard.market_ := Dashboard.DEFAULT_MARKET |} t)
    = Ok p /\
    Dashboard.body_pdas (body_of (fst sample_healthy_request)) = Dashboard.pdaRows p.
Proof.
  apply (dashboard_roots_are_the_payer (W := sample_web3) (flaky_cluster 15)
           sample_host no_dashboard_env no_query [] (snd sample_healthy_request)
           (body_of (fst sample_healthy_request))).
  vm_compute. reflexivity.
Defined.
